(** * Offline contest runtime: a shallow embedding of the TypeScript sources

    The development follows the repository file by file:

    - [JS]            the fragment of JavaScript values and string
                      operations the sources rely on;
    - [Runner]        [src/utils/advancedOfflineRunner.ts];
    - [Monitor]       [src/utils/internetMonitor.ts];
    - [Preparation]   [src/utils/contestPreparation.ts];
    - [UserState]     [src/utils/userStateManager.ts];
    - [Solver]        the scoring, submission and persistence code of
                      [src/pages/EnhancedProblemSolver.tsx]. *)

From Stdlib Require Import ZArith NArith QArith List String Ascii DecimalString Lia.
From stdpp Require Import base option list gmap.
From Equations Require Import Equations.
Import ListNotations.

Set Default Proof Using "Type".
#[local] Set Warnings "-register-all".

(* ===================================================================== *)
(** * JavaScript values and strings *)
(* ===================================================================== *)

Module JS.

(** A JavaScript string is a sequence of UTF-16 code units. *)
Definition jsstring : Type := list N.

(** ASCII literals of the sources, as code units. *)
Definition str (s : string) : jsstring :=
  map N_of_ascii (list_ascii_of_string s).

(** ECMAScript [WhiteSpace] and [LineTerminator] code points, the set
    stripped by [String.prototype.trim]. *)
Definition WhiteSpace : list N :=
  [ 9; 11; 12; 32; 160; 5760;
    8192; 8193; 8194; 8195; 8196; 8197; 8198; 8199; 8200; 8201; 8202;
    8239; 8287; 12288; 65279 ]%N.

Definition LineTerminator : list N := [ 10; 13; 8232; 8233 ]%N.

Definition is_ws (c : N) : bool :=
  existsb (N.eqb c) WhiteSpace || existsb (N.eqb c) LineTerminator.

Fixpoint trimStart (s : jsstring) : jsstring :=
  match s with
  | c :: s' => if is_ws c then trimStart s' else s
  | [] => []
  end.

Definition trimEnd (s : jsstring) : jsstring := rev (trimStart (rev s)).

(** [s.trim()] *)
Definition trim (s : jsstring) : jsstring := trimEnd (trimStart s).


(** [a === b] on strings. *)
Definition str_eqb (a b : jsstring) : bool := bool_decide (a = b).

(** The line break ["\n"]. *)
Definition newline : jsstring := [10%N].

(** [lines.join(sep)] *)
Fixpoint join (sep : jsstring) (lines : list jsstring) : jsstring :=
  match lines with
  | [] => []
  | [l] => l
  | l :: rest => l ++ sep ++ join sep rest
  end.

(** [key.startsWith(p)] *)
Fixpoint startsWith (p key : jsstring) : bool :=
  match p, key with
  | [], _ => true
  | _ :: _, [] => false
  | a :: p', b :: key' => N.eqb a b && startsWith p' key'
  end.

(** Values of type [any].  A finite number is kept as the rational it
    denotes; [NaN] and the infinities never occur in the JSON documents
    and counters the sources handle. *)
Inductive JSValue : Type :=
| JUndefined
| JNull
| JBool (b : bool)
| JNum (q : Q)
| JStr (s : jsstring)
| JArr (items : list JSValue)
| JObj (fields : list (jsstring * JSValue)).

(** Truthiness, as used by [!v], [v || w] and [if (v)]. *)
Definition truthy (v : JSValue) : bool :=
  match v with
  | JUndefined | JNull => false
  | JBool b => b
  | JNum q => negb (Qnum q =? 0)%Z
  | JStr s => match s with [] => false | _ => true end
  | JArr _ | JObj _ => true
  end.

(** [a || b] *)
Definition js_or (a b : JSValue) : JSValue := if truthy a then a else b.

(** Truthiness of an optional string field ([undefined] when absent). *)
Definition truthy_ostr (e : option jsstring) : bool :=
  match e with
  | Some (_ :: _) => true
  | _ => false
  end.

Fixpoint assoc (k : jsstring) (fields : list (jsstring * JSValue)) : option JSValue :=
  match fields with
  | [] => None
  | (k', v) :: rest => if bool_decide (k' = k) then Some v else assoc k rest
  end.

(** [v.k]: [None] is the [TypeError] raised on [null] and [undefined];
    a missing property reads as [undefined]. *)
Definition get (v : JSValue) (k : jsstring) : option JSValue :=
  match v with
  | JUndefined | JNull => None
  | JObj fields => Some (default JUndefined (assoc k fields))
  | _ => Some JUndefined
  end.

End JS.

(* ===================================================================== *)
(** * advancedOfflineRunner.ts *)
(* ===================================================================== *)

Module Runner.
Import JS.

Record TestCase := mkTestCase {
  input : jsstring;
  expectedOutput : jsstring;
  description : option jsstring
}.

Record ExecutionResult := mkExecutionResult {
  passed : bool;
  executionTime : Z;
  output : jsstring;
  error : option jsstring;
  testCase : TestCase
}.

(** Observable behaviour of the wrapped function built by
    [runJavaScriptUserCode].  [JsRejected]: [new Function] rejects the
    text, or the function throws past its own [catch]; [msg] is the
    text the outer [catch] makes of the exception.  [JsRan]: the body
    runs to its end or throws, each [console.log] call pushing one line
    onto [__buffer]; [thrown] is [String(e && e.message || e)].  The
    participant's text is spliced into the body of the wrapper, so it
    may also leave it through a [return] of its own: [JsReturned] is
    that case, [out] being the value handed back (the value a returned
    promise resolves to), taken among the data values of [JSValue], and
    [JsEscaped] the case of a returned promise that rejects, [msg]
    being what the [catch] of [executeTestCase] reads off the
    rejection. *)
Inductive JsExec :=
| JsRejected (msg : jsstring)
| JsRan (logged : list jsstring) (thrown : option jsstring)
| JsReturned (out : JSValue)
| JsEscaped (msg : jsstring).

(** Observable behaviour of the Pyodide run: the interpreter cannot be
    loaded, or the program runs; [captured] is the value of
    [__captured_out] read back afterwards and [raised] the message of
    the exception of [runPythonAsync], if any. *)
Inductive PyExec :=
| PyUnavailable (msg : jsstring)
| PyRan (captured : jsstring) (raised : option jsstring).

(** The platform: the two interpreters (the program only sees its source
    and the injected input), the measured wall-clock time, the
    [isPythonReady] flag of the runner instance, [JSON.stringify], and
    the messages of the two [TypeError]s a value can raise in
    [executeTestCase]: on reading [.result] off [null] or [undefined],
    and on calling [.trim()] on a value that is not a string. *)
Record Platform := mkPlatform {
  js_engine : jsstring -> jsstring -> JsExec;
  py_engine : jsstring -> jsstring -> PyExec;
  elapsed : jsstring -> jsstring -> Z;
  isPythonReady : bool;
  JSON_stringify : JSValue -> jsstring;
  cannot_read : JSValue -> jsstring;
  not_a_function : JSValue -> jsstring
}.

(** How the promise of a [run...UserCode] helper settles for
    [executeTestCase]: with a value, or rejected. *)
Inductive Settled :=
| Resolved (out : JSValue)
| RejectedWith (msg : jsstring).

Section WithPlatform.
Variable P : Platform.

(** The object literals of the helper, and the value of the
    participant's own [return]. *)
Definition runJavaScriptUserCode (sourceCode : jsstring) (tc : TestCase) : Settled :=
  match js_engine P sourceCode (input tc) with
  | JsRan logged None =>
      Resolved (JObj [ (str "stdout", JStr (join newline logged));
                       (str "result", JUndefined) ])
  | JsRan logged (Some thrown) =>
      Resolved (JObj [ (str "stdout", JStr (join newline logged));
                       (str "result", JUndefined);
                       (str "error", JStr thrown) ])
  | JsRejected msg =>
      Resolved (JObj [ (str "stdout", JStr []);
                       (str "result", JUndefined);
                       (str "error", JStr msg) ])
  | JsReturned out => Resolved out
  | JsEscaped msg => RejectedWith msg
  end.

Definition runPythonUserCode (sourceCode : jsstring) (tc : TestCase) : Settled :=
  match py_engine P sourceCode (input tc) with
  | PyRan captured raised =>
      Resolved (JObj [ (str "stdout", JStr (trim captured));
                       (str "result", JUndefined);
                       (str "error", match raised with
                                     | Some e => JStr e
                                     | None => JUndefined
                                     end) ])
  | PyUnavailable msg =>
      Resolved (JObj [ (str "stdout", JStr []);
                       (str "result", JUndefined);
                       (str "error", JStr msg) ])
  end.

Definition normalizeOutput (r : JSValue) : jsstring :=
  match r with
  | JArr _ => JSON_stringify P r
  | JUndefined => str "undefined"
  | JNull => str "null"
  | JObj _ => JSON_stringify P r
  | JStr s => s
  | _ => JSON_stringify P r
  end.

(** [result.k] for a value that is neither [null] nor [undefined]. *)
Definition field (result : JSValue) (k : string) : JSValue :=
  default JUndefined (get result (str k)).

(** [a === s] for a value [a] and a string [s]. *)
Definition is_text (a : JSValue) (s : jsstring) : bool :=
  match a with
  | JStr s' => str_eqb s' s
  | _ => false
  end.

(** [normalizeOutput(result.result)] and [result.stdout || '']. *)
Definition actualResult (result : JSValue) : jsstring :=
  normalizeOutput (field result "result").

Definition actualStdout (result : JSValue) : JSValue :=
  js_or (field result "stdout") (JStr []).

(** The value of [output] when the comparison block is left:
    [result.error] if that is truthy, else
    [actualStdout || actualResult]. *)
Definition shown (result : JSValue) : JSValue :=
  if truthy (field result "error") then field result "error"
  else js_or (actualStdout result) (JStr (actualResult result)).

(** The comparison block shared by the two language branches of
    [executeTestCase]: the pair [(passed, output)], or [None] when
    reading [result.result] raises a [TypeError]. *)
Definition judge (result : JSValue) (tc : TestCase) : option (bool * JSValue) :=
  match get result (str "result") with
  | None => None
  | Some _ =>
      let expected := trim (expectedOutput tc) in
      let passed := str_eqb (actualResult result) expected
                    || is_text (actualStdout result) expected in
      Some (if truthy (field result "error") then false else passed, shown result)
  end.

(** The result built in the [catch] block of [executeTestCase]. *)
Definition failed (msg : jsstring) (code : jsstring) (tc : TestCase) : ExecutionResult :=
  {| passed := false;
     executionTime := elapsed P code (input tc);
     output := [];
     error := Some msg;
     testCase := tc |}.

(** The [return] that ends the [try] block: [output.trim()] raises a
    [TypeError] on anything but a string, which the [catch] block turns
    into a failed result. *)
Definition finished (j : bool * JSValue) (code : jsstring) (tc : TestCase) : ExecutionResult :=
  match snd j with
  | JStr output =>
      {| passed := fst j;
         executionTime := elapsed P code (input tc);
         output := trim output;
         error := None;
         testCase := tc |}
  | v => failed (not_a_function P v) code tc
  end.

(** One language branch, from the [await] on. *)
Definition settle (r : Settled) (code : jsstring) (tc : TestCase) : ExecutionResult :=
  match r with
  | Resolved result =>
      match judge result tc with
      | Some j => finished j code tc
      | None => failed (cannot_read P result) code tc
      end
  | RejectedWith msg => failed msg code tc
  end.

Definition executeTestCase (code language : jsstring) (tc : TestCase) : ExecutionResult :=
  if str_eqb language (str "python") then
    if isPythonReady P
    then settle (runPythonUserCode code tc) code tc
    else failed (str "Python execution environment not available") code tc
  else if str_eqb language (str "javascript") then
    settle (runJavaScriptUserCode code tc) code tc
  else
    failed (str "Unsupported language: " ++ language) code tc.

(** [executeTestCase] catches every exception itself, so the [catch]
    of the loop in [runCode] is never entered. *)
Definition runCode (code language : jsstring) (testCases : list TestCase)
  : list ExecutionResult :=
  map (executeTestCase code language) testCases.

(** [isJavaScriptReady] is [true] from construction on. *)
Definition isLanguageSupported (language : jsstring) : bool :=
  if str_eqb language (str "javascript") then true
  else if str_eqb language (str "python") then isPythonReady P
  else false.



End WithPlatform.

End Runner.

(* ===================================================================== *)
(** * Effects: emitted events and exceptions *)
(* ===================================================================== *)

(** Code that logs, calls back and may throw is written in a writer monad
    over an exception result: a computation yields the events it emitted,
    in order, and either a value or the exception that escaped. *)
Module Eff.

Inductive Outcome (E A : Type) : Type :=
| Return (a : A)
| Throw (e : E).
Arguments Return {E A} a.
Arguments Throw {E A} e.

Definition M (Ev E A : Type) : Type := list Ev * Outcome E A.

Section Ops.
Context {Ev E : Type}.

Definition ret {A} (a : A) : M Ev E A := ([], Return a).

Definition throw {A} (e : E) : M Ev E A := ([], Throw e).

Definition emit (ev : Ev) : M Ev E unit := ([ev], Return tt).

Definition bind {A B} (m : M Ev E A) (k : A -> M Ev E B) : M Ev E B :=
  match m with
  | (evs, Return a) => let '(evs', r) := k a in (evs ++ evs', r)
  | (evs, Throw e) => (evs, Throw e)
  end.

(** [try { m } catch (e) { h e }] *)
Definition try_catch {A} (m : M Ev E A) (h : E -> M Ev E A) : M Ev E A :=
  match m with
  | (evs, Return a) => (evs, Return a)
  | (evs, Throw e) => let '(evs', r) := h e in (evs ++ evs', r)
  end.

(** [xs.forEach(f)] *)
Fixpoint forEach {A} (xs : list A) (f : A -> M Ev E unit) : M Ev E unit :=
  match xs with
  | [] => ret tt
  | x :: rest => bind (f x) (fun _ => forEach rest f)
  end.

Definition events {A} (m : M Ev E A) : list Ev := fst m.
Definition outcome {A} (m : M Ev E A) : Outcome E A := snd m.

Definition returns {A} (m : M Ev E A) : bool :=
  match snd m with Return _ => true | Throw _ => false end.
End Ops.

Module Notations.
Notation "x <- m ;; k" := (bind m (fun x => k))
  (at level 100, m at next level, right associativity).
Notation "m ;;; k" := (bind m (fun _ => k))
  (at level 100, right associativity).
End Notations.

End Eff.

(* ===================================================================== *)
(** * internetMonitor.ts *)
(* ===================================================================== *)

Module Monitor.
Import Eff Eff.Notations.

Inductive Quality := good | poor | offline.

Record InternetStatus := mkStatus {
  isOnline : bool;
  lastChecked : Z;
  connectionQuality : Quality;
  latency : option Z
}.

(** [Partial<InternetStatus>]: the keys an object literal carries. *)
Record PartialStatus := mkPartial {
  p_isOnline : option bool;
  p_lastChecked : option Z;
  p_connectionQuality : option Quality;
  p_latency : option Z
}.

(** [{ ...cur, ...upd }] *)
Definition spread (cur : InternetStatus) (upd : PartialStatus) : InternetStatus :=
  {| isOnline := default (isOnline cur) (p_isOnline upd);
     lastChecked := default (lastChecked cur) (p_lastChecked upd);
     connectionQuality := default (connectionQuality cur) (p_connectionQuality upd);
     latency := match p_latency upd with Some l => Some l | None => latency cur end |}.

(** The object literals built by [checkConnectivity] and the event
    listeners, seen as partial statuses: [latency] is a key only when
    the probe succeeded. *)
Definition as_partial (s : InternetStatus) : PartialStatus :=
  {| p_isOnline := Some (isOnline s);
     p_lastChecked := Some (lastChecked s);
     p_connectionQuality := Some (connectionQuality s);
     p_latency := latency s |}.

(** A subscribed function is known by its identity; what it does when
    called is the environment's: it returns or throws.  Callbacks are
    taken not to call back into the monitor while they run. *)
Definition Callback : Type := nat.

Inductive Event :=
| Called (cb : Callback) (s : InternetStatus)
| ConsoleError (cb : Callback)
| Probe.

Inductive Exn :=
| CallbackError (cb : Callback)
| FetchError.

Record Env := mkEnv {
  cb_throws : Callback -> InternetStatus -> bool;
  (** [navigator.onLine]; [None] when [navigator] is undefined *)
  navigator_onLine : option bool;
  startTime : Z;        (** [Date.now()] before the probe *)
  endTime : Z;          (** [Date.now()] after the probe *)
  today : Z;            (** [new Date()] *)
  fetch_resolves : bool (** the probe resolves; it rejects on failure or abort *)
}.

Record State := mkState {
  isMonitoring : bool;
  callbacks : list Callback;
  currentStatus : InternetStatus
}.

Section WithEnv.
Variable env : Env.

Abbreviation M := (Eff.M Event Exn).

Definition call (cb : Callback) (s : InternetStatus) : M unit :=
  emit (Called cb s) ;;;
  if cb_throws env cb s then throw (CallbackError cb) else ret tt.

Definition updateStatus (newStatus : PartialStatus) (st : State) : M State :=
  let st' := {| isMonitoring := isMonitoring st;
                callbacks := callbacks st;
                currentStatus := spread (currentStatus st) newStatus |} in
  forEach (callbacks st') (fun callback =>
    try_catch (call callback (currentStatus st'))
              (fun _ => emit (ConsoleError callback))) ;;;
  ret st'.

Definition offline_status : InternetStatus :=
  {| isOnline := false; lastChecked := today env;
     connectionQuality := offline; latency := None |}.

Definition fetch : M unit :=
  emit Probe ;;;
  if fetch_resolves env then ret tt else throw FetchError.

Definition checkConnectivity : M InternetStatus :=
  match navigator_onLine env with
  | Some false => ret offline_status
  | _ =>
      try_catch
        (fetch ;;;
         let latency := (endTime env - startTime env)%Z in
         ret {| isOnline := true; lastChecked := today env;
                connectionQuality := if (latency <? 1000)%Z then good else poor;
                latency := Some latency |})
        (fun _ => ret offline_status)
  end.

Definition performCheck (st : State) : M (InternetStatus * State) :=
  status <- checkConnectivity ;;
  st' <- updateStatus (as_partial status) st ;;
  ret (status, st').

(** [subscribe] pushes the callback and hands back the closure
    [unsubscribe]; it calls nothing. *)
Definition subscribe (callback : Callback) (st : State) : M State :=
  ret {| isMonitoring := isMonitoring st;
         callbacks := callbacks st ++ [callback];
         currentStatus := currentStatus st |}.

Fixpoint remove_first (cb : Callback) (cbs : list Callback) : list Callback :=
  match cbs with
  | [] => []
  | c :: rest => if Nat.eqb c cb then rest else c :: remove_first cb rest
  end.

Definition unsubscribe (callback : Callback) (st : State) : M State :=
  ret {| isMonitoring := isMonitoring st;
         callbacks := remove_first callback (callbacks st);
         currentStatus := currentStatus st |}.

Definition getCurrentStatus (st : State) : InternetStatus := currentStatus st.

(** A series of status updates, each run to completion before the
    next; an exception that escaped one of them would end the series. *)
Fixpoint updates (us : list PartialStatus) (st : State) : M State :=
  match us with
  | [] => ret st
  | u :: rest => st' <- updateStatus u st ;; updates rest st'
  end.

(** The statuses a given callback was called with. *)
Definition calls_of (cb : Callback) (evs : list Event) : list InternetStatus :=
  omap (fun ev => match ev with
                  | Called c s => if Nat.eqb c cb then Some s else None
                  | _ => None
                  end) evs.

(** How often an exception of a given callback was logged. *)
Definition errors_of (cb : Callback) (evs : list Event) : nat :=
  length (List.filter (fun ev => match ev with
                                 | ConsoleError c => Nat.eqb c cb
                                 | _ => false
                                 end) evs).

(** The current status after each update of a series. *)
Fixpoint statuses_after (s : InternetStatus) (us : list PartialStatus)
  : list InternetStatus :=
  match us with
  | [] => []
  | u :: rest => spread s u :: statuses_after (spread s u) rest
  end.

(** The loop of [updateStatus] over a list of callbacks. *)
Definition notify (cbs : list Callback) (s : InternetStatus) : M unit :=
  forEach cbs (fun callback =>
    try_catch (call callback s) (fun _ => emit (ConsoleError callback))).

(** The events of that loop, written out. *)
Definition notify_events (cbs : list Callback) (s : InternetStatus) : list Event :=
  flat_map (fun cb => Called cb s ::
                      (if cb_throws env cb s then [ConsoleError cb] else [])) cbs.

Definition is_probe (ev : Event) : bool :=
  match ev with Probe => true | _ => false end.

Definition probes (evs : list Event) : nat :=
  length (List.filter is_probe evs).

End WithEnv.

End Monitor.

(* ===================================================================== *)
(** * contestPreparation.ts *)
(* ===================================================================== *)

Module Preparation.
Import JS.
#[local] Open Scope Z_scope.

Inductive Stage := idle | downloading | preparing | ready | error.

Record PreparationProgress := mkProgress {
  stage : Stage;
  progress : Z;
  message : jsstring;
  details : jsstring
}.

(** [Partial<PreparationProgress>] *)
Record Updates := mkUpdates {
  u_stage : option Stage;
  u_progress : option Z;
  u_message : option jsstring;
  u_details : option jsstring
}.

(** The fields of the [ContestPreparation] instance.  The subscriber
    list is left out: every [updateProgress] hands the new progress
    object to each subscriber, inside a [try], so the list of
    published objects below is what any subscriber is called with. *)
Record State := mkState {
  current : PreparationProgress;
  isPreparing : bool
}.

Definition initial : State :=
  {| current := {| stage := idle; progress := 0;
                   message := str "Ready to prepare contest"; details := [] |};
     isPreparing := false |}.

(** A step of the code yields the new state and the progress objects it
    published, in order. *)
Definition Pub (A : Type) : Type := A * list PreparationProgress.

Definition updateProgress (u : Updates) (st : State) : Pub State :=
  let p := {| stage := default (stage (current st)) (u_stage u);
              progress := default (progress (current st)) (u_progress u);
              message := default (message (current st)) (u_message u);
              details := default (details (current st)) (u_details u) |} in
  ({| current := p; isPreparing := isPreparing st |}, [p]).

Definition then_ {A B} (m : Pub A) (k : A -> Pub B) : Pub B :=
  let '(a, ps) := m in let '(b, qs) := k a in (b, ps ++ qs).

(** [updateProgress({ progress, message, details })] *)
Definition report (p : Z) (m d : string) : State -> Pub State :=
  updateProgress {| u_stage := None; u_progress := Some p;
                    u_message := Some (str m); u_details := Some (str d) |}.

(** What a thrown value is to [catch (error)]: an [Error] with its
    message, or something else. *)
Inductive Thrown := ErrorObject (msg : jsstring) | OtherValue.

(** What the environment answers to one run: whether the problems must
    be fetched (no cached copy, and a contest id), whether that request
    comes back with [resp.ok], what [preloadPythonEnvironment] resolves
    to, and whether [localStorage.setItem] throws in
    [finalizePreparation]. *)
Record World := mkWorld {
  must_fetch : bool;
  fetch_ok : bool;
  preload_ok : bool;
  setItem_throws : option Thrown
}.

(** The points at which a run is suspended: the [await]s inside the
    five stages, the [await] of each stage in [prepareContest], which
    resumes a turn after the stage has returned, and the rejection of
    the last stage on its way to the [catch] block. *)
Inductive Pc :=
| AwaitPythonDelay    (** [downloadPythonLibraries]: [simulateDelay(2000)] *)
| AfterPython         (** [await this.downloadPythonLibraries()] *)
| AwaitJsDelay        (** [downloadJavaScriptLibraries]: [simulateDelay(1500)] *)
| AfterJs             (** [await this.downloadJavaScriptLibraries()] *)
| AwaitFetch          (** [downloadContestProblems]: the contest [fetch] *)
| AwaitJson           (** [downloadContestProblems]: [resp.json()] *)
| AwaitProblemsDelay  (** [downloadContestProblems]: [simulateDelay(1000)] *)
| AfterProblems       (** [await this.downloadContestProblems(contestId)] *)
| AwaitInitRunner     (** [prepareOfflineEnvironment]: [initializeOfflineRunner()] *)
| AwaitPreload        (** [prepareOfflineEnvironment]: [preloadPythonEnvironment()] *)
| AwaitEnvDelay       (** [prepareOfflineEnvironment]: [simulateDelay(500)] *)
| AfterEnv            (** [await this.prepareOfflineEnvironment()] *)
| AwaitFinalDelay     (** [finalizePreparation]: [simulateDelay(200)] *)
| AfterFinal          (** [await this.finalizePreparation(contestId)] *)
| Rejected (e : Thrown). (** the same [await], the stage having thrown [e] *)

(** How a turn of a run ends: suspended, or returned. *)
Inductive Next := Suspend (pc : Pc) | Done (result : bool).

Definition suspend (pc : Pc) (st : State) : Pub (State * Next) := ((st, Suspend pc), []).

(** [finally { this.isPreparing = false }], then the [return]. *)
Definition leave (result : bool) (st : State) : Pub (State * Next) :=
  (({| current := current st; isPreparing := false |}, Done result), []).

(** The [catch] block of [prepareContest]. *)
Definition fail (e : Thrown) (st : State) : Pub (State * Next) :=
  then_ (updateProgress
           {| u_stage := Some error; u_progress := Some 0;
              u_message := Some (str "Preparation failed");
              u_details := Some (match e with
                                 | ErrorObject msg => msg
                                 | OtherValue => str "Unknown error occurred"
                                 end) |} st)
        (leave false).

(** The call itself, up to its first [await]. *)
Definition prepareContest (st : State) : Pub (State * Next) :=
  if isPreparing st then ((st, Done false), [])
  else
    let st := {| current := current st; isPreparing := true |} in
    then_ (updateProgress
             {| u_stage := Some downloading; u_progress := Some 0;
                u_message := Some (str "Starting contest preparation...");
                u_details := Some (str "Downloading required libraries and packages") |} st)
    (fun st => then_ (report 10 "Downloading Python libraries..."
                        "Setting up Pyodide for offline Python execution" st)
    (suspend AwaitPythonDelay)).

(** The turn that runs when the promise awaited at [pc] settles.  The
    cache and network work of [downloadContestProblems] publishes
    nothing and swallows its own exceptions. *)
Definition resume (w : World) (pc : Pc) (st : State) : Pub (State * Next) :=
  match pc with
  | AwaitPythonDelay =>
      then_ (report 30 "Python libraries downloaded" "Pyodide loaded successfully" st)
      (suspend AfterPython)
  | AfterPython =>
      then_ (report 40 "Downloading JavaScript libraries..."
               "Setting up offline JavaScript execution environment" st)
      (suspend AwaitJsDelay)
  | AwaitJsDelay =>
      then_ (report 60 "JavaScript libraries downloaded" "Offline JS execution ready" st)
      (suspend AfterJs)
  | AfterJs =>
      then_ (report 70 "Downloading contest problems..."
               "Loading DSA problems and test cases" st)
      (suspend (if must_fetch w then AwaitFetch else AwaitProblemsDelay))
  | AwaitFetch => suspend (if fetch_ok w then AwaitJson else AwaitProblemsDelay) st
  | AwaitJson => suspend AwaitProblemsDelay st
  | AwaitProblemsDelay =>
      then_ (report 85 "Contest problems loaded"
               "Problems and test cases ready for offline use" st)
      (suspend AfterProblems)
  | AfterProblems =>
      then_ (report 90 "Preparing offline environment..."
               "Setting up code execution sandbox" st)
      (suspend AwaitInitRunner)
  | AwaitInitRunner =>
      then_ (report 92 "Initializing Python engine..."
               "Loading Pyodide for offline Python execution" st)
      (suspend AwaitPreload)
  | AwaitPreload =>
      let ok := preload_ok w in
      then_ (report (if ok then 94 else 90)
               (if ok then "Python engine ready" else "Python engine unavailable")
               (if ok then "Pyodide initialized successfully"
                else "Pyodide failed to initialize") st)
      (suspend AwaitEnvDelay)
  | AwaitEnvDelay =>
      then_ (report 95 "Offline environment ready" "Code execution sandbox prepared" st)
      (suspend AfterEnv)
  | AfterEnv =>
      then_ (report 98 "Finalizing preparation..." "Completing setup and verification" st)
      (suspend (match setItem_throws w with
                | Some e => Rejected e
                | None => AwaitFinalDelay
                end))
  | AwaitFinalDelay => suspend AfterFinal st
  | AfterFinal =>
      then_ (updateProgress
               {| u_stage := Some ready; u_progress := Some 100;
                  u_message := Some (str "Contest preparation complete!");
                  u_details := Some (str "All systems ready. You can now turn off your internet and start the contest.") |} st)
      (leave true)
  | Rejected e => fail e st
  end.

Definition resetPreparation (st : State) : Pub State :=
  updateProgress {| u_stage := Some idle; u_progress := Some 0;
                    u_message := Some (str "Ready to prepare contest");
                    u_details := Some [] |} st.

(** One run driven to its end with nothing else scheduled in between;
    [fuel] bounds the number of turns. *)
Fixpoint drive (fuel : nat) (w : World) (pc : Pc) (st : State)
  : option (Pub (State * bool)) :=
  match fuel with
  | O => None
  | S fuel =>
      match resume w pc st with
      | ((st', Suspend pc'), ps) =>
          match drive fuel w pc' st' with
          | Some (r, qs) => Some (r, ps ++ qs)
          | None => None
          end
      | ((st', Done b), ps) => Some ((st', b), ps)
      end
  end.

Definition run (fuel : nat) (w : World) (st : State) : option (Pub (State * bool)) :=
  match prepareContest st with
  | ((st', Suspend pc), ps) =>
      match drive fuel w pc st' with
      | Some (r, qs) => Some (r, ps ++ qs)
      | None => None
      end
  | ((st', Done b), ps) => Some ((st', b), ps)
  end.

(** [true] when the list never steps down. *)
Fixpoint nondecreasing (l : list Z) : bool :=
  match l with
  | a :: (b :: _) as rest => (a <=? b)%Z && nondecreasing rest
  | _ => true
  end.

(** ** The scheduler's view: calls and resumptions interleaved *)

Record Task := mkTask { world : World; at_ : Pc }.

Record System := mkSystem {
  state : State;
  inflight : list Task;                 (** runs suspended at an [await] *)
  published : list PreparationProgress; (** every object published so far *)
  returned : list bool                  (** results of the calls that returned *)
}.

Inductive Action :=
| Call (w : World)     (** [prepareContest(id)], answered by [w] *)
| Resume (i : nat)     (** the awaited promise of the [i]-th run settles *)
| Reset.               (** [resetPreparation(id)] *)

Definition settle (sys : System) (others : list Task) (w : World)
           (r : Pub (State * Next)) : System :=
  let '((st, nxt), ps) := r in
  match nxt with
  | Suspend pc =>
      {| state := st; inflight := others ++ [ {| world := w; at_ := pc |} ];
         published := published sys ++ ps; returned := returned sys |}
  | Done b =>
      {| state := st; inflight := others;
         published := published sys ++ ps; returned := returned sys ++ [b] |}
  end.

Definition step (sys : System) (a : Action) : System :=
  match a with
  | Call w => settle sys (inflight sys) w (prepareContest (state sys))
  | Resume i =>
      match inflight sys !! i with
      | Some t => settle sys (delete i (inflight sys)) (world t)
                    (resume (world t) (at_ t) (state sys))
      | None => sys
      end
  | Reset =>
      let '(st, ps) := resetPreparation (state sys) in
      {| state := st; inflight := inflight sys;
         published := published sys ++ ps; returned := returned sys |}
  end.

Definition boot : System :=
  {| state := initial; inflight := []; published := []; returned := [] |}.

Definition exec (acts : list Action) : System := fold_left step acts boot.

(** The guard and the suspended runs agree: either the guard is down
    and no run is suspended, or it is up and exactly one run is. *)
Definition guarded (sys : System) : Prop :=
  (isPreparing (state sys) = false /\ inflight sys = [])
  \/ (isPreparing (state sys) = true /\ exists t, inflight sys = [t]).

End Preparation.

(* ===================================================================== *)
(** * The browser: [localStorage] and the JSON codec *)
(* ===================================================================== *)

Module Browser.
Import JS.

(** [localStorage]: string keys to string values. *)
Abbreviation Storage := (gmap jsstring jsstring).

(** [JSON.parse] ([None]: it throws), [JSON.stringify] on values that
    are not [undefined], and [new Date().toISOString()]. *)
Record Platform := mkPlatform {
  JSON_parse : jsstring -> option JSValue;
  JSON_stringify : JSValue -> jsstring;
  toISOString : jsstring
}.

(** [localStorage.getItem(k)]; a missing key reads as [null]. *)
Definition getItem (k : jsstring) (ls : Storage) : option jsstring := ls !! k.
Definition setItem (k v : jsstring) (ls : Storage) : Storage := <[k := v]> ls.
Definition removeItem (k : jsstring) (ls : Storage) : Storage := delete k ls.

(** The keys [localStorage.key(0)], ..., [localStorage.key(length-1)]. *)
Definition keys (ls : Storage) : list jsstring := (map_to_list ls).*1.

(** A reference codec for concrete documents: [print] writes the JSON
    text of a value built from [null], booleans, integers, strings
    that need no escape, arrays and objects; [parse_among docs] reads
    a text back as the document of [docs] that prints to it. *)
Definition digits (z : Z) : jsstring :=
  str (NilZero.string_of_int (Z.to_int z)).

Definition quote (s : jsstring) : jsstring := 34%N :: s ++ [34%N].

Fixpoint print (v : JSValue) : jsstring :=
  match v with
  | JUndefined | JNull => str "null"
  | JBool b => if b then str "true" else str "false"
  | JNum q => digits (Qnum q)
  | JStr s => quote s
  | JArr items => str "[" ++ join (str ",") (map print items) ++ str "]"
  | JObj fields =>
      str "{" ++ join (str ",") (map (fun kv => quote (fst kv) ++ str ":" ++ print (snd kv))
                                   fields) ++ str "}"
  end.

Definition parse_among (docs : list JSValue) (text : jsstring) : option JSValue :=
  List.find (fun d => str_eqb (print d) text) docs.

Definition codec_for (docs : list JSValue) : Platform :=
  {| JSON_parse := parse_among docs;
     JSON_stringify := print;
     toISOString := str "2025-03-01T10:00:00.000Z" |}.

(** [a === s] for a value [a] and a string [s]. *)
Definition is_string (a : JSValue) (s : jsstring) : bool :=
  match a with
  | JStr s' => str_eqb s' s
  | _ => false
  end.

End Browser.

(* ===================================================================== *)
(** * userStateManager.ts *)
(* ===================================================================== *)

Module UserState.
Import JS Browser.

Definition USER_STATE_KEY : jsstring := str "current_user_state".
Definition CONTEST_STATE_KEY : jsstring := str "contest_state".
Definition CONTEST_RESULTS_KEY : jsstring := str "contest_results".
Definition FINAL_CONTEST_RESULT_KEY : jsstring := str "final_contest_result".
Definition INTERNET_VIOLATIONS_KEY : jsstring := str "internet_violations".

(** The test of the loop in [resetAllUserState]; an empty key is falsy. *)
Definition user_specific (key : jsstring) : bool :=
  match key with
  | [] => false
  | _ => startsWith (str "contest_") key
         || startsWith (str "user_") key
         || startsWith (str "problem_") key
         || startsWith (str "submission_") key
  end.

(** The keys [resetAllUserState] removes: the four named ones and the
    ones its loop selects. *)
Definition contest_related (key : jsstring) : bool :=
  str_eqb key CONTEST_STATE_KEY || str_eqb key CONTEST_RESULTS_KEY
  || str_eqb key FINAL_CONTEST_RESULT_KEY || str_eqb key INTERNET_VIOLATIONS_KEY
  || user_specific key.

Section WithPlatform.
Variable P : Platform.

(** [null] is what the function returns when nothing is stored, when
    the stored text is empty and when [JSON.parse] throws. *)
Definition getCurrentUserState (ls : Storage) : JSValue :=
  match getItem USER_STATE_KEY ls with
  | Some (c :: s) =>
      match JSON_parse P (c :: s) with
      | Some v => v
      | None => JNull
      end
  | _ => JNull
  end.

Definition setCurrentUserState (userId : jsstring) (ls : Storage) : Storage :=
  let userState := JObj [ (str "userId", JStr userId);
                          (str "lastLogin", JStr (toISOString P)) ] in
  setItem USER_STATE_KEY (JSON_stringify P userState) ls.

Definition resetAllUserState (ls : Storage) : Storage :=
  let ls := removeItem CONTEST_STATE_KEY ls in
  let ls := removeItem CONTEST_RESULTS_KEY ls in
  let ls := removeItem FINAL_CONTEST_RESULT_KEY ls in
  let ls := removeItem INTERNET_VIOLATIONS_KEY ls in
  let keysToRemove := List.filter user_specific (keys ls) in
  fold_left (fun ls key => removeItem key ls) keysToRemove ls.

Definition checkAndResetUserState (newUserId : jsstring) (ls : Storage)
  : bool * Storage :=
  let currentUserState := getCurrentUserState ls in
  if negb (truthy currentUserState) then
    (true, setCurrentUserState newUserId (resetAllUserState ls))
  else if negb (is_string (default JUndefined (get currentUserState (str "userId")))
                          newUserId) then
    (true, setCurrentUserState newUserId (resetAllUserState ls))
  else
    (false, ls).

Definition clearUserState (ls : Storage) : Storage :=
  removeItem USER_STATE_KEY (resetAllUserState ls).

(** [userState?.userId || null] *)
Definition getCurrentUserId (ls : Storage) : JSValue :=
  js_or (default JUndefined (get (getCurrentUserState ls) (str "userId"))) JNull.

Definition isSameUser (userId : jsstring) (ls : Storage) : bool :=
  is_string (getCurrentUserId ls) userId.

End WithPlatform.

End UserState.

(* ===================================================================== *)
(** * pages/EnhancedProblemSolver.tsx *)
(* ===================================================================== *)

Module Solver.
Import JS Browser.
#[local] Open Scope Z_scope.

(** ** [markProblemDone]: the score of a problem *)

(** A test case of the problem; [points] is [tc.points] when the test
    case declares a number ([Number(tc.points)] is [NaN] otherwise). *)
Record ScoredCase := mkScoredCase {
  case : Runner.TestCase;
  points : option Q
}.

(** [Number(tc.points) || 0] *)
Definition points_or_0 (tc : ScoredCase) : Q := default 0%Q (points tc).

(** [arr.reduce((sum, r, idx) => f sum r idx, init)] *)
Fixpoint reduce_from {A B} (f : B -> A -> nat -> B) (idx : nat) (arr : list A) (init : B) : B :=
  match arr with
  | [] => init
  | r :: rest => reduce_from f (S idx) rest (f init r idx)
  end.

Definition reduce {A B} (f : B -> A -> nat -> B) (arr : list A) (init : B) : B :=
  reduce_from f 0%nat arr init.

(** The results the score is computed from: the displayed ones, or a
    fresh run when there are none ([None]: [runCode] gave [undefined]). *)
Definition safeResults (testResults : list Runner.ExecutionResult)
           (fresh : option (list Runner.ExecutionResult)) : list Runner.ExecutionResult :=
  match testResults with
  | [] => default [] fresh
  | _ => testResults
  end.

(** Numbers are doubles in the source and rationals here; the two agree
    on the integer point values and sums the problems use. *)
Definition score (testCases : list ScoredCase) (results : list Runner.ExecutionResult) : Q :=
  let ptsArray := map points_or_0 testCases in
  reduce (fun sum r idx =>
            let pts := match ptsArray with
                       | [] => (100 / inject_Z (Z.max 1 (Z.of_nat (length results))))%Q
                       | _ => default 0%Q (ptsArray !! idx)
                       end in
            (sum + (if Runner.passed r then pts else 0))%Q)
         results 0%Q.

(** The declared points of the passed results, test case by test case. *)
Fixpoint awarded (pts : list Q) (results : list Runner.ExecutionResult) : Q :=
  match results, pts with
  | r :: rs, p :: ps => ((if Runner.passed r then p else 0) + awarded ps rs)%Q
  | _, _ => 0%Q
  end.

(** [perProblemMax], shown next to the score. *)
Definition perProblemMax (testCases : list ScoredCase) : Q :=
  match map points_or_0 testCases with
  | [] => 100%Q
  | ptsArray => fold_left Qplus ptsArray 0%Q
  end.

(** ** [submitFinalResults]: the retry chain *)

Definition FINAL_KEY : jsstring := str "final_contest_result".

(** How the payload of one invocation turns out: both ids present, an
    id missing, or an exception while it is put together. *)
Inductive Payload := Complete | MissingIds | BuildThrows.

(** How the POST turns out: [fetch] rejects, or a response arrives with
    [response.ok] or not; [body_ok] is whether [response.json()]
    resolves. *)
Inductive Response := Unreachable | Ok (body_ok : bool) | NotOk.

(** What one invocation meets: [internetStatus.isOnline], the payload
    and the server. *)
Record Attempt := mkAttempt {
  online : bool;
  payload : Payload;
  response : Response
}.

Inductive Event :=
| ToastOffline
| ToastMissing
| Post
| ToastSuccess
| ToastRetry (seconds : Z) (attempt : nat)
| ToastGaveUp
| RetryAfter (ms : Z)      (** [setTimeout(() => submitFinalResults(retryCount + 1), delay)] *)
| NavigateAfter (ms : Z).  (** [setTimeout(() => ... navigate('/'), ms)] *)

Definition maxRetries : nat := 3.

(** The [try] block: its events and whether it ended in the [catch]. *)
Definition try_block (a : Attempt) : list Event * bool :=
  match payload a with
  | BuildThrows => ([], true)
  | MissingIds => ([ToastMissing], false)
  | Complete =>
      match response a with
      | Ok true => ([Post; ToastSuccess; NavigateAfter 2000], false)
      | Ok false | NotOk | Unreachable => ([Post], true)
      end
  end.

(** [Math.pow(2, retryCount) * 1000] *)
Definition delay (retryCount : nat) : Z := 2 ^ Z.of_nat retryCount * 1000.

(** The invocation with [retryCount] and the invocations its timers
    start.  [world k s] is what invocation [k] meets when the stored
    final result reads [s]; the storage is handed on as the
    invocation leaves it. *)
Equations submitFinalResults (world : nat -> option jsstring -> Attempt)
          (retryCount : nat) (ls : Storage)
  : list Event * Storage by wf (maxRetries - retryCount)%nat lt :=
  submitFinalResults world retryCount ls
    with world retryCount (getItem FINAL_KEY ls) => {
    | a with online a => {
      | false => ([ToastOffline], ls)
      | true with try_block a => {
        | (evs, false) => (evs, ls)
        | (evs, true) with lt_dec retryCount (maxRetries - 1) => {
          | left _ =>
              let '(rest, ls') := submitFinalResults world (S retryCount) ls in
              (evs ++ [ToastRetry (delay retryCount / 1000) (S retryCount);
                       RetryAfter (delay retryCount)] ++ rest, ls')
          | right _ => (evs ++ [ToastGaveUp; NavigateAfter 3000], ls)
          }
        }
      }
    }.
Next Obligation. unfold maxRetries in *. lia. Qed.

(** The delays still to come from invocation [k] on. *)
Definition schedule (k : nat) : list Z :=
  map delay (seq k (maxRetries - 1 - k)).

Definition posts (evs : list Event) : nat :=
  length (List.filter (fun ev => match ev with Post => true | _ => false end) evs).

Definition retry_delays (evs : list Event) : list Z :=
  omap (fun ev => match ev with RetryAfter ms => Some ms | _ => None end) evs.

(** ** [saveContestState] and the rehydration effect *)

Record SessionState := mkSession {
  contestStarted : bool;
  currentProblemIndex : Z;
  problemResults : list JSValue;
  contestCompleted : bool;
  timeLeft : Z;
  contestStartTime : Z;
  violationCount : Z;
  penaltyPoints : Z
}.

Definition num (z : Z) : JSValue := JNum (inject_Z z).

(** The object literal [contestState]. *)
Definition contestState (s : SessionState) : JSValue :=
  JObj [ (str "contestStarted", JBool (contestStarted s));
         (str "currentProblemIndex", num (currentProblemIndex s));
         (str "problemResults", JArr (problemResults s));
         (str "contestCompleted", JBool (contestCompleted s));
         (str "timeLeft", num (timeLeft s));
         (str "contestStartTime", num (contestStartTime s));
         (str "violationCount", num (violationCount s));
         (str "penaltyPoints", num (penaltyPoints s)) ].

(** What the setters are called with on rehydration; the values come
    out of [JSON.parse] and are of type [any]. *)
Record Hydrated := mkHydrated {
  h_contestStarted : JSValue;
  h_currentProblemIndex : JSValue;
  h_problemResults : JSValue;
  h_contestCompleted : JSValue;
  h_timeLeft : JSValue;
  h_contestStartTime : JSValue;
  h_violationCount : JSValue;
  h_penaltyPoints : JSValue
}.

(** The outcome of the effect: the saved state is taken over, or the
    contest starts afresh, the timer being set through the updater
    [prev => prev > 0 ? prev : defaultTimer], or nobody is logged in. *)
Inductive Loaded :=
| Rehydrated (h : Hydrated)
| StartFresh (defaultTimer : Z)
| NoUser.

(** The timer once the update of the effect is applied, [prev] being
    the timer the component holds at that moment. *)
Definition timeLeft_after (l : Loaded) (prev : Z) : JSValue :=
  match l with
  | Rehydrated h => h_timeLeft h
  | StartFresh defaultTimer => JNum (inject_Z (if 0 <? prev then prev else defaultTimer))
  | NoUser => JNum (inject_Z prev)
  end.

Section WithPlatform.
Variable P : Platform.

Definition saveContestState (s : SessionState) (ls : Storage) : Storage :=
  setItem (str "contest_state") (JSON_stringify P (contestState s)) ls.

(** The body of the [try]: [None] is a [TypeError] on reading a
    property of [null]. *)
Definition hydrate (state : JSValue) (timeLeft_now : Z) (now : Z) : option Hydrated :=
  cs ← get state (str "contestStarted");
  idx ← get state (str "currentProblemIndex");
  prs ← get state (str "problemResults");
  cc ← get state (str "contestCompleted");
  tl ← get state (str "timeLeft");
  cst ← get state (str "contestStartTime");
  vc ← get state (str "violationCount");
  pp ← get state (str "penaltyPoints");
  Some {| h_contestStarted := js_or cs (JBool false);
          h_currentProblemIndex := js_or idx (num 0);
          h_problemResults := js_or prs (JArr []);
          h_contestCompleted := js_or cc (JBool false);
          h_timeLeft := js_or (js_or tl (num timeLeft_now)) (num 0);
          h_contestStartTime := js_or cst (num now);
          h_violationCount := js_or vc (num 0);
          h_penaltyPoints := js_or pp (num 0) |}.

(** The effect that runs when the user is known: [user] is
    [user?.id], [timeLeft_now] the component's [timeLeft] at that
    render and [now] is [Date.now()]. *)
Definition rehydrate (user : option jsstring) (timeLeft_now now : Z) (ls : Storage)
  : Loaded :=
  match user with
  | Some (c :: u) =>
      if UserState.isSameUser P (c :: u) ls then
        match getItem (str "contest_state") ls with
        | Some (d :: saved) =>
            match JSON_parse P (d :: saved) with
            | Some state =>
                match hydrate state timeLeft_now now with
                | Some h => Rehydrated h
                | None => StartFresh 5400
                end
            | None => StartFresh 5400
            end
        | _ => StartFresh 7200
        end
      else StartFresh 7200
  | _ => NoUser
  end.

(** [useState<number>(0)]: the [timeLeft] that the closures of the
    commit mounting the component hold. *)
Definition initial_timeLeft : Z := 0.

(** The effect as it runs when the page is loaded: in the commit that
    mounts the component, the user being known by then. *)
Definition rehydrate_on_mount (user : option jsstring) (now : Z) (ls : Storage) : Loaded :=
  rehydrate user initial_timeLeft now ls.

End WithPlatform.

End Solver.

(* ===================================================================== *)
(** * advancedOfflineRunner.ts: the language queries *)
(* ===================================================================== *)

Module RunnerApi.
Import JS Runner.

(** [isJavaScriptReady] is [true] from construction on, so
    ['javascript'] is always pushed. *)
Definition getSupportedLanguages (P : Platform) : list jsstring :=
  [str "javascript"] ++ (if isPythonReady P then [str "python"] else []).

(** The result [executeTestCase] builds in its [catch] block. *)
Definition failure (P : Platform) (code : jsstring) (msg : jsstring) (tc : TestCase)
  : ExecutionResult :=
  {| passed := false;
     executionTime := elapsed P code (input tc);
     output := [];
     error := Some msg;
     testCase := tc |}.

(** The message of the error thrown for a language that cannot run. *)
Definition refusal (language : jsstring) : jsstring :=
  if str_eqb language (str "python")
  then str "Python execution environment not available"
  else str "Unsupported language: " ++ language.

End RunnerApi.

(* ===================================================================== *)
(** * internetMonitor.ts: construction, browser events, timers *)
(* ===================================================================== *)

Module Lifecycle.
Import Eff Monitor.

(** The field initializers of the class; [onLine] is [navigator.onLine]
    and [now] the time of construction. *)
Definition create (onLine : bool) (now : Z) : State :=
  {| isMonitoring := false;
     callbacks := [];
     currentStatus := {| isOnline := onLine; lastChecked := now;
                         connectionQuality := if onLine then good else offline;
                         latency := None |} |}.

(** The object literals of the two listeners of [setupEventListeners]. *)
Definition online_update (now : Z) : PartialStatus :=
  {| p_isOnline := Some true; p_lastChecked := Some now;
     p_connectionQuality := Some good; p_latency := None |}.

Definition offline_update (now : Z) : PartialStatus :=
  {| p_isOnline := Some false; p_lastChecked := Some now;
     p_connectionQuality := Some offline; p_latency := None |}.

(** What happens to a monitor: the browser fires [online] or [offline],
    somebody calls [performCheck] (in the environment [e]), subscribes
    or calls an [unsubscribe] closure. *)
Inductive Input :=
| BrowserOnline (now : Z)
| BrowserOffline (now : Z)
| Check (e : Env)
| Subscribe (cb : Callback)
| Unsubscribe (cb : Callback).

Definition handle (env : Env) (i : Input) (st : State) : M Event Exn State :=
  match i with
  | BrowserOnline now => updateStatus env (online_update now) st
  | BrowserOffline now => updateStatus env (offline_update now) st
  | Check e => bind (performCheck e st) (fun r => ret (snd r))
  | Subscribe cb => subscribe cb st
  | Unsubscribe cb => unsubscribe cb st
  end.

Fixpoint handle_all (env : Env) (inputs : list Input) (st : State) : M Event Exn State :=
  match inputs with
  | [] => ret st
  | i :: rest => bind (handle env i st) (handle_all env rest)
  end.

(** [isOnline] and [connectionQuality] agree. *)
Definition consistent (s : InternetStatus) : Prop :=
  isOnline s = false <-> connectionQuality s = offline.

(** The statuses handed to callbacks, whoever they are. *)
Definition published (evs : list Event) : list InternetStatus :=
  omap (fun ev => match ev with Called _ s => Some s | _ => None end) evs.

(** ** [startMonitoring], [stopMonitoring], [destroy] *)

(** The interval timers of the page: the handles that are live, and the
    handle the next [setInterval] returns. *)
Record Timers := mkTimers {
  live : gset nat;
  next_handle : nat
}.

(** The monitor with its timer fields. *)
Record Scheduled := mkScheduled {
  base : State;
  checkInterval : option nat;
  checkIntervalMs : Z
}.

(** [checks] counts the calls of [performCheck] that [startMonitoring]
    makes itself. *)
Record Page := mkPage {
  monitor : Scheduled;
  timers : Timers;
  checks : nat
}.

Definition with_monitoring (b : bool) (st : State) : State :=
  {| isMonitoring := b; callbacks := callbacks st; currentStatus := currentStatus st |}.

Definition startMonitoring (intervalMs : Z) (p : Page) : Page :=
  if isMonitoring (base (monitor p)) then p
  else
    let handle := next_handle (timers p) in
    {| monitor := {| base := with_monitoring true (base (monitor p));
                     checkInterval := Some handle;
                     checkIntervalMs := intervalMs |};
       timers := {| live := {[ handle ]} ∪ live (timers p);
                    next_handle := S handle |};
       checks := S (checks p) |}.

Definition stopMonitoring (p : Page) : Page :=
  {| monitor := {| base := with_monitoring false (base (monitor p));
                   checkInterval := None;
                   checkIntervalMs := checkIntervalMs (monitor p) |};
     timers := match checkInterval (monitor p) with
               | Some handle => {| live := live (timers p) ∖ {[ handle ]};
                                   next_handle := next_handle (timers p) |}
               | None => timers p
               end;
     checks := checks p |}.

Definition destroy (p : Page) : Page :=
  let p := stopMonitoring p in
  {| monitor := {| base := {| isMonitoring := isMonitoring (base (monitor p));
                              callbacks := [];
                              currentStatus := currentStatus (base (monitor p)) |};
                   checkInterval := checkInterval (monitor p);
                   checkIntervalMs := checkIntervalMs (monitor p) |};
     timers := timers p;
     checks := checks p |}.

Inductive Command := Start (intervalMs : Z) | Stop | Destroy.

Definition command (p : Page) (c : Command) : Page :=
  match c with
  | Start ms => startMonitoring ms p
  | Stop => stopMonitoring p
  | Destroy => destroy p
  end.

(** A page whose only interval timers are the monitor's. *)
Definition open_page (st : State) : Page :=
  {| monitor := {| base := with_monitoring false st;
                   checkInterval := None; checkIntervalMs := 2000 |};
     timers := {| live := ∅; next_handle := 1 |};
     checks := 0 |}.

(** What any series of commands keeps: the flag is up exactly when a
    handle is held, the held handle is the only live timer, and handles
    yet to be given out are not live. *)
Definition tidy (p : Page) : Prop :=
  isMonitoring (base (monitor p)) = bool_decide (is_Some (checkInterval (monitor p)))
  /\ live (timers p) = match checkInterval (monitor p) with
                       | Some handle => {[ handle ]}
                       | None => ∅
                       end
  /\ (forall h, h ∈ live (timers p) -> h < next_handle (timers p)).

End Lifecycle.

(* ===================================================================== *)
(** * internetMonitor.ts: the violation log *)
(* ===================================================================== *)

Module Violations.
Import JS Browser Monitor.

Definition VIOLATIONS_KEY : jsstring := str "internet_violations".

Definition quality_name (q : Quality) : jsstring :=
  match q with
  | good => str "good"
  | poor => str "poor"
  | offline => str "offline"
  end.

(** The record the method builds and returns: [timestamp] is a string
    and [status] is the monitor's current status object itself, whose
    [lastChecked] is a [Date] (kept in [InternetStatus] as its time
    value). *)
Record Violation := mkViolation {
  contestId : jsstring;
  userId : jsstring;
  timestamp : jsstring;
  status : InternetStatus
}.

Definition violation (P : Platform) (contestId userId : jsstring) (st : State) : Violation :=
  {| contestId := contestId;
     userId := userId;
     timestamp := toISOString P;
     status := currentStatus st |}.

Inductive Exn := SyntaxError | TypeError.

(** [localStorage.getItem('internet_violations') || '[]'] *)
Definition stored_log (ls : Storage) : jsstring :=
  match getItem VIOLATIONS_KEY ls with
  | Some (c :: s) => c :: s
  | _ => str "[]"
  end.

Section WithDates.
(** [Date.prototype.toJSON] on the date with a given time value: its
    ISO text. *)
Variable toJSON : Z -> jsstring.

(** What [JSON.stringify] writes for the record, as a document: the
    [Date] goes through [toJSON] and becomes a string, and [latency] is
    a key only when it is set. *)
Definition status_json (s : InternetStatus) : JSValue :=
  JObj ([ (str "isOnline", JBool (isOnline s));
          (str "lastChecked", JStr (toJSON (lastChecked s)));
          (str "connectionQuality", JStr (quality_name (connectionQuality s))) ]
        ++ match latency s with
           | Some l => [ (str "latency", JNum (inject_Z l)) ]
           | None => []
           end).

Definition violation_json (v : Violation) : JSValue :=
  JObj [ (str "contestId", JStr (contestId v));
         (str "userId", JStr (userId v));
         (str "timestamp", JStr (timestamp v));
         (str "status", status_json (status v)) ].

(** The call yields the record it created, or the exception of
    [JSON.parse] or of [violations.push], and the storage as it leaves
    it: the text of the parsed array with the record pushed onto it. *)
Definition handleInternetViolation (P : Platform) (contestId userId : jsstring)
           (st : State) (ls : Storage) : Eff.Outcome Exn Violation * Storage :=
  let v := violation P contestId userId st in
  match JSON_parse P (stored_log ls) with
  | None => (Eff.Throw SyntaxError, ls)
  | Some (JArr violations) =>
      (Eff.Return v,
       setItem VIOLATIONS_KEY
               (JSON_stringify P (JArr (violations ++ [violation_json v]))) ls)
  | Some _ => (Eff.Throw TypeError, ls)
  end.

End WithDates.

Definition getViolationHistory (P : Platform) (ls : Storage) : Eff.Outcome Exn JSValue :=
  match JSON_parse P (stored_log ls) with
  | None => Eff.Throw SyntaxError
  | Some v => Eff.Return v
  end.

Definition clearViolationHistory (ls : Storage) : Storage := removeItem VIOLATIONS_KEY ls.

End Violations.

(* ===================================================================== *)
(** * contestPreparation.ts: subscribers and the prepared flag *)
(* ===================================================================== *)

Module Subscribers.
Import Eff Preparation.

(** A subscribed function, known by its identity, as for the monitor. *)
Definition Callback : Type := nat.

Inductive Event :=
| Called (cb : Callback) (p : PreparationProgress)
| ConsoleError (cb : Callback).

Inductive Exn := CallbackError (cb : Callback).

(** The instance with its subscriber list. *)
Record Pipeline := mkPipeline {
  core : State;
  callbacks : list Callback
}.

Section WithBehaviour.
(** Whether a callback throws when handed a progress object. *)
Variable throws : Callback -> PreparationProgress -> bool.

Definition call (cb : Callback) (p : PreparationProgress) : M Event Exn unit :=
  bind (emit (Called cb p))
       (fun _ => if throws cb p then throw (CallbackError cb) else ret tt).

(** [subscribe] pushes the callback and then calls it, outside any
    [try], before it returns the [unsubscribe] closure: the pipeline is
    given as the call leaves it, whether it returns or throws. *)
Definition subscribe (cb : Callback) (pl : Pipeline) : Pipeline * M Event Exn unit :=
  ({| core := core pl; callbacks := callbacks pl ++ [cb] |},
   call cb (current (core pl))).

Fixpoint remove_first (cb : Callback) (cbs : list Callback) : list Callback :=
  match cbs with
  | [] => []
  | c :: rest => if Nat.eqb c cb then rest else c :: remove_first cb rest
  end.

Definition unsubscribe (cb : Callback) (pl : Pipeline) : Pipeline :=
  {| core := core pl; callbacks := remove_first cb (callbacks pl) |}.

(** [updateProgress] with its loop over the subscribers. *)
Definition updateProgress (u : Updates) (pl : Pipeline) : Pipeline * M Event Exn unit :=
  let st := fst (Preparation.updateProgress u (core pl)) in
  ({| core := st; callbacks := callbacks pl |},
   forEach (callbacks pl) (fun callback =>
     try_catch (call callback (current st))
               (fun _ => emit (ConsoleError callback)))).

Definition calls_of (cb : Callback) (evs : list Event) : list PreparationProgress :=
  omap (fun ev => match ev with
                  | Called c p => if Nat.eqb c cb then Some p else None
                  | _ => None
                  end) evs.

End WithBehaviour.

End Subscribers.

Module Prepared.
Import JS Browser.

(** A contest id is used when it is truthy: a non-empty string. *)
Definition scoped (prefix : string) (contestId : option jsstring) : jsstring :=
  match contestId with
  | Some (c :: id) => str prefix ++ str "_" ++ c :: id
  | _ => str prefix
  end.

Definition prepared_key := scoped "contest_prepared".
Definition prepared_at_key := scoped "contest_prepared_at".
Definition problems_key := scoped "contest_problems".

(** The storage writes of [finalizePreparation]. *)
Definition finalizePreparation (P : Platform) (contestId : option jsstring)
           (ls : Storage) : Storage :=
  setItem (prepared_at_key contestId) (toISOString P)
          (setItem (prepared_key contestId) (str "true") ls).

Definition isContestPrepared (contestId : option jsstring) (ls : Storage) : bool :=
  match getItem (prepared_key contestId) ls with
  | Some v => str_eqb v (str "true")
  | None => false
  end.

(** The storage writes of [resetPreparation]. *)
Definition resetPreparation (contestId : option jsstring) (ls : Storage) : Storage :=
  removeItem (problems_key contestId)
    (removeItem (prepared_at_key contestId)
       (removeItem (prepared_key contestId) ls)).

End Prepared.

(* ===================================================================== *)
(** * contexts/AuthContext.tsx: the stored token and the cached user *)
(* ===================================================================== *)

Module Auth.
Import JS Browser.

Definition TOKEN_KEY : jsstring := str "token".
Definition USER_CACHE_KEY : jsstring := str "user_cache".

(** [response.data.data.user], of type [User]: its [id] and its other
    fields. *)
Record User := mkUser {
  id : jsstring;
  fields : list (jsstring * JSValue)
}.

Definition userData (u : User) : JSValue := JObj ((str "id", JStr (id u)) :: fields u).

(** The state of the provider and the storage it works on. *)
Record Auth := mkAuth {
  user : JSValue;             (** [null] when nobody is logged in *)
  token : option jsstring;
  loading : bool;
  storage : Storage
}.

(** How [api.get('/auth/me')] settles: with the user, or rejected with
    [error.response.status] when there is a response. *)
Inductive Settled := Resolved (u : User) | Rejected (status : option Z).

Section WithPlatform.
Variable P : Platform.

(** [fetchUser]; the storage writes are taken to succeed. *)
Definition fetchUser (r : Settled) (a : Auth) : Auth :=
  match r with
  | Resolved u =>
      let ls := snd (UserState.checkAndResetUserState P (id u) (storage a)) in
      {| user := userData u; token := token a; loading := false;
         storage := setItem USER_CACHE_KEY (JSON_stringify P (userData u)) ls |}
  | Rejected status =>
      if bool_decide (status = Some 401%Z) then
        {| user := JNull; token := None; loading := false;
           storage := removeItem TOKEN_KEY (storage a) |}
      else
        match getItem USER_CACHE_KEY (storage a) with
        | Some (c :: cached) =>
            match JSON_parse P (c :: cached) with
            | Some cachedUser =>
                {| user := cachedUser; token := token a; loading := false;
                   storage := storage a |}
            | None =>
                {| user := user a; token := token a; loading := false;
                   storage := storage a |}
            end
        | _ => {| user := user a; token := token a; loading := false;
                  storage := storage a |}
        end
  end.

(** The effect run on load: the stored token is taken over and the user
    fetched, [r] being how that request settles. *)
Definition load (r : Settled) (ls : Storage) : Auth :=
  match getItem TOKEN_KEY ls with
  | Some (c :: storedToken) =>
      fetchUser r {| user := JNull; token := Some (c :: storedToken);
                     loading := true; storage := ls |}
  | _ => {| user := JNull; token := None; loading := false; storage := ls |}
  end.

(** [login] and [register] once the request has resolved with the user
    and a token. *)
Definition login (u : User) (userToken : jsstring) (a : Auth) : Auth :=
  let ls := snd (UserState.checkAndResetUserState P (id u) (storage a)) in
  {| user := userData u; token := Some userToken; loading := loading a;
     storage := setItem USER_CACHE_KEY (JSON_stringify P (userData u))
                  (setItem TOKEN_KEY userToken ls) |}.

End WithPlatform.

Definition logout (a : Auth) : Auth :=
  {| user := JNull; token := None; loading := loading a;
     storage := removeItem USER_CACHE_KEY
                  (removeItem TOKEN_KEY (UserState.clearUserState (storage a))) |}.

(** [!!user && !!token] *)
Definition isAuthenticated (a : Auth) : bool :=
  truthy (user a) && truthy_ostr (token a).

End Auth.

(* ===================================================================== *)
(** * pages/EnhancedProblemSolver.tsx: the session *)
(* ===================================================================== *)

Module Session.
Import JS Browser.
#[local] Open Scope Z_scope.

(** ** [formatTime] *)

(** [n.toString()] for an integer. *)
Definition toString (n : Z) : jsstring := digits n.

(** [s.padStart(n, fill)] for a one-character [fill]. *)
Definition padStart (n : nat) (fill : N) (s : jsstring) : jsstring :=
  replicate (n - length s) fill ++ s.

Definition zero : N := 48%N.
Definition colon : jsstring := str ":".

(** [Math.floor(a / b)] is [a / b] and [a % b] is [Z.rem a b]. *)
Definition formatTime (seconds : Z) : jsstring :=
  let hours := seconds / 3600 in
  let minutes := Z.rem seconds 3600 / 60 in
  let secs := Z.rem seconds 60 in
  padStart 2 zero (toString hours) ++ colon
  ++ padStart 2 zero (toString minutes) ++ colon
  ++ padStart 2 zero (toString secs).

(** ** The countdown *)

(** The state the timer effect reads and writes; [completions] counts
    the calls of [completeContest] it makes. *)
Record Clock := mkClock {
  timeLeft : Z;
  contestStarted : bool;
  contestCompleted : bool;
  completions : nat
}.

(** One firing of the interval.  The effect installs the interval only
    while [contestStarted && timeLeft > 0], and installs it anew after
    every change of the three fields, so a firing sees them as they
    are. *)
Definition tick (c : Clock) : Clock :=
  if contestStarted c && (0 <? timeLeft c) then
    if timeLeft c <=? 1 then
      if contestCompleted c
      then {| timeLeft := 0; contestStarted := contestStarted c;
              contestCompleted := contestCompleted c; completions := completions c |}
      else {| timeLeft := 0; contestStarted := false;
              contestCompleted := true; completions := S (completions c) |}
    else {| timeLeft := timeLeft c - 1; contestStarted := contestStarted c;
            contestCompleted := contestCompleted c; completions := completions c |}
  else c.

Definition ticks (n : nat) (c : Clock) : Clock := Nat.iter n tick c.

(** ** The sequence of problems *)






(** ** Violations *)

Record Counters := mkCounters {
  violationCount : Z;
  penaltyPoints : Z
}.

(** The counters of a detection that went through. *)
Definition counted (c : Counters) : Counters :=
  {| violationCount := violationCount c + 1;
     penaltyPoints := penaltyPoints c + 10 |}.

(** The component's [handleInternetViolation]: [user] is [user.id] when
    a user is logged in, [id] the contest id of the route.  An exception
    of the monitor's method leaves the function before the counters are
    touched. *)
Definition handleInternetViolation (toJSON : Z -> jsstring) (P : Platform)
           (user id : option jsstring)
           (st : Monitor.State) (ls : Storage) (c : Counters)
  : Eff.Outcome Violations.Exn unit * Storage * Counters :=
  match user, id with
  | Some userId, Some (i :: d) =>
      match Violations.handleInternetViolation toJSON P (i :: d) userId st ls with
      | (Eff.Return _, ls') =>
          (Eff.Return tt, ls', counted c)
      | (Eff.Throw e, ls') => (Eff.Throw e, ls', c)
      end
  | _, _ => (Eff.Return tt, ls, c)
  end.

(** A series of detections, each on the monitor state of its moment;
    an exception ends one detection, not the series (it is caught by
    the monitor's loop or by the effect that detected). *)
Fixpoint detections (toJSON : Z -> jsstring) (P : Platform) (user id : option jsstring)
         (sts : list Monitor.State) (ls : Storage) (c : Counters) : Storage * Counters :=
  match sts with
  | [] => (ls, c)
  | st :: rest =>
      let '(_, ls', c') := handleInternetViolation toJSON P user id st ls c in
      detections toJSON P user id rest ls' c'
  end.

End Session.

(* ===================================================================== *)
(** * Concrete inputs *)
(* ===================================================================== *)

(** Small platforms, programs and stores on which the statements below
    are evaluated. *)
Module Examples.
Import JS.

(** ** Runner *)

(** The test case [{ input: "3\n1 2 3", expectedOutput: "6" }]. *)
Definition sum_case : Runner.TestCase :=
  {| Runner.input := str "3" ++ newline ++ str "1 2 3";
     Runner.expectedOutput := str "6";
     Runner.description := None |}.

(** The same test case, its expected output authored as [" 6\n"]. *)
Definition sum_case_padded : Runner.TestCase :=
  {| Runner.input := str "3" ++ newline ++ str "1 2 3";
     Runner.expectedOutput := str " " ++ str "6" ++ newline;
     Runner.description := None |}.

(** A platform on which every JavaScript program logs the lines
    [logged] and then throws [thrown] (if any), and every Python
    program prints [captured] and raises [raised] (if any). *)
Definition scripted (logged : list jsstring) (thrown : option jsstring)
           (captured : jsstring) (raised : option jsstring) : Runner.Platform :=
  {| Runner.js_engine := fun _ _ => Runner.JsRan logged thrown;
     Runner.py_engine := fun _ _ => Runner.PyRan captured raised;
     Runner.elapsed := fun _ _ => 4%Z;
     Runner.isPythonReady := true;
     Runner.JSON_stringify := fun _ => str "null";
     Runner.cannot_read := fun _ => str "Cannot read properties of null";
     Runner.not_a_function := fun _ => str "output.trim is not a function" |}.







(** [print(6)] under Python: the captured text is ["6\n"]. *)
Definition py_prints_6 : Runner.Platform := scripted [] None (str "6" ++ newline) None.

(** ** Monitor *)

Definition online_since (t : Z) : Monitor.InternetStatus :=
  {| Monitor.isOnline := true; Monitor.lastChecked := t;
     Monitor.connectionQuality := Monitor.good; Monitor.latency := None |}.

(** A monitor nobody has subscribed to yet. *)
Definition fresh_monitor : Monitor.State :=
  {| Monitor.isMonitoring := false; Monitor.callbacks := [];
     Monitor.currentStatus := online_since 0 |}.

(** An environment in which callback [1] throws on every offline
    status, the link is up and the probe takes 120 ms. *)
Definition flaky_env : Monitor.Env :=
  {| Monitor.cb_throws := fun cb s => Nat.eqb cb 1 && negb (Monitor.isOnline s);
     Monitor.navigator_onLine := Some true;
     Monitor.startTime := 1000; Monitor.endTime := 1120; Monitor.today := 1121;
     Monitor.fetch_resolves := true |}.

(** The browser's [offline] and [online] events at times 5 and 9. *)
Definition went_offline : Monitor.PartialStatus :=
  {| Monitor.p_isOnline := Some false; Monitor.p_lastChecked := Some 5%Z;
     Monitor.p_connectionQuality := Some Monitor.offline; Monitor.p_latency := None |}.
Definition went_online : Monitor.PartialStatus :=
  {| Monitor.p_isOnline := Some true; Monitor.p_lastChecked := Some 9%Z;
     Monitor.p_connectionQuality := Some Monitor.good; Monitor.p_latency := None |}.

(** ** Preparation *)

(** The problems are cached and storage works, but Pyodide cannot be
    loaded: [preloadPythonEnvironment] resolves to [false]. *)
Definition python_unavailable : Preparation.World :=
  {| Preparation.must_fetch := false; Preparation.fetch_ok := false;
     Preparation.preload_ok := false; Preparation.setItem_throws := None |}.

Definition all_fine : Preparation.World :=
  {| Preparation.must_fetch := true; Preparation.fetch_ok := true;
     Preparation.preload_ok := true; Preparation.setItem_throws := None |}.

(** [localStorage.setItem] throws a quota error in the last stage. *)
Definition quota_exceeded : Preparation.World :=
  {| Preparation.must_fetch := false; Preparation.fetch_ok := false;
     Preparation.preload_ok := true;
     Preparation.setItem_throws :=
       Some (Preparation.ErrorObject (str "The quota has been exceeded.")) |}.

(** ** Solver *)

Definition passed_result (b : bool) : Runner.ExecutionResult :=
  {| Runner.passed := b; Runner.executionTime := 4; Runner.output := str "6";
     Runner.error := None; Runner.testCase := sum_case |}.

(** A problem with two test cases, neither of which declares points
    (the [TestCase] interface has no such field). *)
Definition two_plain_cases : list Solver.ScoredCase :=
  [ {| Solver.case := sum_case; Solver.points := None |};
    {| Solver.case := sum_case_padded; Solver.points := None |} ].

(** The server answers 500 twice, then accepts. *)
Definition third_time_lucky (k : nat) (_ : option jsstring) : Solver.Attempt :=
  {| Solver.online := true; Solver.payload := Solver.Complete;
     Solver.response := if (k <? 2)%nat then Solver.NotOk else Solver.Ok true |}.

(** The server is never reachable. *)
Definition server_down (_ : nat) (_ : option jsstring) : Solver.Attempt :=
  {| Solver.online := true; Solver.payload := Solver.Complete;
     Solver.response := Solver.Unreachable |}.

Definition final_result_text : jsstring := str "{}".

(** A contest that ran out of time on its second problem. *)
Definition timed_out : Solver.SessionState :=
  {| Solver.contestStarted := false;
     Solver.currentProblemIndex := 1;
     Solver.problemResults :=
       [ JObj [ (str "problemId", JStr (str "p1")); (str "score", Solver.num 100) ] ];
     Solver.contestCompleted := true;
     Solver.timeLeft := 0;
     Solver.contestStartTime := 1700000000000;
     Solver.violationCount := 2;
     Solver.penaltyPoints := 20 |}.

(** The same contest with 90 seconds left. *)
Definition running : Solver.SessionState :=
  {| Solver.contestStarted := true;
     Solver.currentProblemIndex := 1;
     Solver.problemResults :=
       [ JObj [ (str "problemId", JStr (str "p1")); (str "score", Solver.num 100) ] ];
     Solver.contestCompleted := false;
     Solver.timeLeft := 90;
     Solver.contestStartTime := 1700000000000;
     Solver.violationCount := 2;
     Solver.penaltyPoints := 20 |}.

Definition alice : jsstring := str "u1".

Definition alice_state : JSValue :=
  JObj [ (str "userId", JStr alice);
         (str "lastLogin", JStr (str "2025-03-01T10:00:00.000Z")) ].

(** A browser whose codec knows the documents above. *)
Definition browser : Browser.Platform :=
  Browser.codec_for [ alice_state; Solver.contestState timed_out;
                      Solver.contestState running ].

(** Alice is logged in on this device; an earlier contest left some
    keys behind. *)
Definition alice_storage : Browser.Storage :=
  <[ UserState.USER_STATE_KEY := Browser.print alice_state ]>
    (<[ str "token" := str "t0" ]> ∅).

(** ** More inputs *)


(** The probe is rejected (no route, or the 3 s abort). *)
Definition probe_fails : Monitor.Env :=
  {| Monitor.cb_throws := fun _ _ => false;
     Monitor.navigator_onLine := Some true;
     Monitor.startTime := 5000; Monitor.endTime := 8000; Monitor.today := 8001;
     Monitor.fetch_resolves := false |}.

(** A monitor whose last probe succeeded in 120 ms. *)
Definition probed_monitor : Monitor.State :=
  {| Monitor.isMonitoring := true; Monitor.callbacks := [];
     Monitor.currentStatus :=
       {| Monitor.isOnline := true; Monitor.lastChecked := 1121;
          Monitor.connectionQuality := Monitor.good; Monitor.latency := Some 120%Z |} |}.

(** The ISO text of the one date of the examples. *)
Definition iso (t : Z) : jsstring := str "2025-03-01T09:59:58.000Z".

(** The first violation of Alice in contest [c42], detected on a fresh
    monitor. *)
Definition first_violation : Violations.Violation :=
  Violations.violation (Browser.codec_for []) (str "c42") alice fresh_monitor.

(** A browser whose codec knows the empty log and the log with that
    violation. *)
Definition logging_browser : Browser.Platform :=
  Browser.codec_for [ JArr []; JArr [Violations.violation_json iso first_violation] ].

(** A storage whose violation log has been overwritten by hand. *)
Definition garbled_log : Browser.Storage :=
  <[ Violations.VIOLATIONS_KEY := str "oops" ]> ∅.

Definition no_violations : Session.Counters :=
  {| Session.violationCount := 0; Session.penaltyPoints := 0 |}.

(** What Bob left on the device: his user record, a running contest and
    a prepared contest. *)
Definition left_by_bob : Browser.Storage :=
  <[ UserState.USER_STATE_KEY := str "{}" ]>
    (<[ str "contest_state" := Browser.print (Solver.contestState running) ]>
       (<[ str "contest_prepared_c42" := str "true" ]> ∅)).

Definition bob : Auth.User :=
  {| Auth.id := str "u2";
     Auth.fields := [ (str "name", JStr (str "Bob")); (str "role", JStr (str "user")) ] |}.

(** A browser whose codec knows Bob's user document and user record. *)
Definition bobs_browser : Browser.Platform :=
  Browser.codec_for
    [ Auth.userData bob;
      JObj [ (str "userId", JStr (str "u2"));
             (str "lastLogin", JStr (str "2025-03-01T10:00:00.000Z")) ] ].

Definition signed_out : Auth.Auth :=
  {| Auth.user := JNull; Auth.token := None; Auth.loading := false;
     Auth.storage := ∅ |}.

End Examples.

(* ===================================================================== *)
(** * Facts about [trim] *)
(* ===================================================================== *)

Module JSFacts.
Import JS.













Lemma trim_nil : trim [] = [].
Proof. done. Qed.

Lemma str_eqb_eq a b : str_eqb a b = true <-> a = b.
Proof. unfold str_eqb. apply bool_decide_eq_true. Qed.

End JSFacts.

(* ===================================================================== *)
(** * The verdict of a test case *)
(* ===================================================================== *)

Module RunnerSpec.
Import JS JSFacts Runner.



(** An unsupported language fails the test case with an error. *)
Lemma executeTestCase_unsupported P code language tc :
  isLanguageSupported P language = false ->
  passed (executeTestCase P code language tc) = false
  /\ output (executeTestCase P code language tc) = []
  /\ is_Some (error (executeTestCase P code language tc)).
Proof.
  unfold isLanguageSupported, executeTestCase.
  destruct (str_eqb language (str "javascript")) eqn:Hjs; [done|].
  destruct (str_eqb language (str "python")) eqn:Hpy.
  - intros ->. simpl. eauto.
  - intros _. simpl. eauto.
Qed.







(** ** White space *)






End RunnerSpec.

(* ===================================================================== *)
(** * The connectivity monitor *)
(* ===================================================================== *)

Module MonitorSpec.
Import Eff Monitor.

Section Facts.
Variable env : Env.

(** One guarded call: the callback is called, and its exception, if
    any, is logged and goes no further. *)
Lemma guarded_call cb s :
  try_catch (call env cb s) (fun _ => emit (ConsoleError cb))
  = (Called cb s :: (if cb_throws env cb s then [ConsoleError cb] else []),
     Return tt).
Proof. unfold call. simpl. destruct (cb_throws env cb s); reflexivity. Qed.

Lemma notify_eq cbs s : notify env cbs s = (notify_events env cbs s, Return tt).
Proof.
  unfold notify, notify_events.
  induction cbs as [|cb cbs IH]; [reflexivity|].
  cbn [forEach flat_map]. rewrite guarded_call, IH. reflexivity.
Qed.

Lemma updateStatus_eq u st :
  updateStatus env u st
  = (notify_events env (callbacks st) (spread (currentStatus st) u),
     Return {| isMonitoring := isMonitoring st;
               callbacks := callbacks st;
               currentStatus := spread (currentStatus st) u |}).
Proof.
  unfold updateStatus. cbn [callbacks currentStatus].
  change (forEach _ _) with (notify env (callbacks st) (spread (currentStatus st) u)).
  rewrite notify_eq. simpl. by rewrite app_nil_r.
Qed.

Lemma calls_of_app cb evs evs' :
  calls_of cb (evs ++ evs') = calls_of cb evs ++ calls_of cb evs'.
Proof. apply omap_app. Qed.

Lemma errors_of_app cb evs evs' :
  errors_of cb (evs ++ evs') = (errors_of cb evs + errors_of cb evs')%nat.
Proof. unfold errors_of. by rewrite List.filter_app, length_app. Qed.

Lemma probes_app evs evs' : probes (evs ++ evs') = (probes evs + probes evs')%nat.
Proof. unfold probes. by rewrite List.filter_app, length_app. Qed.

Lemma notify_events_app cbs cbs' s :
  notify_events env (cbs ++ cbs') s
  = notify_events env cbs s ++ notify_events env cbs' s.
Proof. unfold notify_events. apply flat_map_app. Qed.

(** A callback that is not subscribed is neither called nor logged. *)
Lemma notify_events_other cb cbs s :
  cb ∉ cbs ->
  calls_of cb (notify_events env cbs s) = []
  /\ errors_of cb (notify_events env cbs s) = 0%nat.
Proof.
  induction cbs as [|c cbs IH]; [done|].
  intros [Hne Hnot]%not_elem_of_cons.
  destruct (IH Hnot) as [IHc IHe].
  assert (Nat.eqb c cb = false) as Hcb by (apply Nat.eqb_neq; congruence).
  change (notify_events env (c :: cbs) s)
    with ((Called c s :: (if cb_throws env c s then [ConsoleError c] else []))
            ++ notify_events env cbs s).
  rewrite calls_of_app, errors_of_app, IHc, IHe.
  destruct (cb_throws env c s); unfold errors_of; simpl; rewrite Hcb; done.
Qed.

Lemma notify_events_no_probe cbs s : probes (notify_events env cbs s) = 0%nat.
Proof.
  induction cbs as [|c cbs IH]; [done|].
  change (notify_events env (c :: cbs) s)
    with ((Called c s :: (if cb_throws env c s then [ConsoleError c] else []))
            ++ notify_events env cbs s).
  rewrite probes_app, IH. by destruct (cb_throws env c s).
Qed.

(** The last subscriber of a list, subscribed once: one call per
    update, and one log entry when it throws. *)
Lemma notify_events_last cb cbs s :
  cb ∉ cbs ->
  calls_of cb (notify_events env (cbs ++ [cb]) s) = [s]
  /\ errors_of cb (notify_events env (cbs ++ [cb]) s)
     = (if cb_throws env cb s then 1 else 0)%nat.
Proof.
  intros Hnot. destruct (notify_events_other cb cbs s Hnot) as [Hc He].
  rewrite notify_events_app, calls_of_app, errors_of_app, Hc, He.
  unfold errors_of. simpl. rewrite Nat.eqb_refl.
  destruct (cb_throws env cb s); simpl; by rewrite ?Nat.eqb_refl.
Qed.

(** A series of updates runs to its end, leaves the subscriber list
    alone and calls the last subscriber with every new status. *)
Lemma updates_last cb us : forall st cbs,
  callbacks st = cbs ++ [cb] -> cb ∉ cbs ->
  exists st',
    outcome (updates env us st) = Return st'
    /\ callbacks st' = callbacks st
    /\ calls_of cb (events (updates env us st))
       = statuses_after (currentStatus st) us
    /\ errors_of cb (events (updates env us st))
       = length (List.filter (cb_throws env cb)
                   (statuses_after (currentStatus st) us)).
Proof.
  induction us as [|u us IH]; intros st cbs Hcbs Hnot.
  - exists st. done.
  - cbn [updates statuses_after]. rewrite updateStatus_eq. cbn [bind].
    set (st1 := {| isMonitoring := isMonitoring st; callbacks := callbacks st;
                   currentStatus := spread (currentStatus st) u |}).
    destruct (IH st1 cbs Hcbs Hnot) as (st' & Hout & Hsame & Hcalls & Herrs).
    destruct (updates env us st1) as [evs r] eqn:Hrun.
    unfold events, outcome in *. simpl in *. subst r.
    exists st'. split; [done|]. split; [done|].
    rewrite Hcbs.
    destruct (notify_events_last cb cbs (spread (currentStatus st) u) Hnot)
      as [Hc He].
    rewrite calls_of_app, errors_of_app, Hc, He, Hcalls, Herrs.
    split; [done|].
    by destruct (cb_throws env cb (spread (currentStatus st) u)).
Qed.

(** Every registration of a callback brings one call per update, and
    one log entry when the call throws. *)
Lemma notify_events_count cb cbs s :
  calls_of cb (notify_events env cbs s) = replicate (count_occ Nat.eq_dec cbs cb) s
  /\ errors_of cb (notify_events env cbs s)
     = (if cb_throws env cb s then count_occ Nat.eq_dec cbs cb else 0)%nat.
Proof.
  induction cbs as [|c cbs [IHc IHe]].
  - split; [done|]. by destruct (cb_throws env cb s).
  - change (notify_events env (c :: cbs) s)
      with ((Called c s :: (if cb_throws env c s then [ConsoleError c] else []))
              ++ notify_events env cbs s).
    rewrite calls_of_app, errors_of_app, IHc, IHe. cbn [count_occ].
    destruct (Nat.eq_dec c cb) as [->|Hne].
    + unfold errors_of. destruct (cb_throws env cb s); simpl;
        rewrite ?Nat.eqb_refl; done.
    + assert (Nat.eqb c cb = false) as Hcb by (by apply Nat.eqb_neq).
      unfold errors_of. destruct (cb_throws env c s), (cb_throws env cb s);
        simpl; rewrite Hcb; done.
Qed.

(** A series of updates runs to its end, leaves the subscriber list
    alone and calls a callback with every new status, once for each of
    its registrations. *)
Lemma updates_count cb us : forall st,
  exists st',
    outcome (updates env us st) = Return st'
    /\ callbacks st' = callbacks st
    /\ calls_of cb (events (updates env us st))
       = flat_map (replicate (count_occ Nat.eq_dec (callbacks st) cb))
                  (statuses_after (currentStatus st) us)
    /\ errors_of cb (events (updates env us st))
       = (count_occ Nat.eq_dec (callbacks st) cb
          * length (List.filter (cb_throws env cb)
                      (statuses_after (currentStatus st) us)))%nat.
Proof.
  induction us as [|u us IH]; intros st.
  - exists st. repeat split; try done; simpl; lia.
  - cbn [updates statuses_after]. rewrite updateStatus_eq. cbn [bind].
    set (st1 := {| isMonitoring := isMonitoring st; callbacks := callbacks st;
                   currentStatus := spread (currentStatus st) u |}).
    destruct (IH st1) as (st' & Hout & Hsame & Hcalls & Herrs).
    destruct (updates env us st1) as [evs r] eqn:Hrun.
    unfold events, outcome in *. simpl in *. subst r.
    exists st'. split; [done|]. split; [done|].
    destruct (notify_events_count cb (callbacks st) (spread (currentStatus st) u))
      as [Hc He].
    rewrite calls_of_app, errors_of_app, Hc, He, Hcalls, Herrs.
    split; [done|].
    destruct (cb_throws env cb (spread (currentStatus st) u)); simpl; lia.
Qed.

End Facts.

(** C5, as amended: [subscribe] registers the callback without calling
    it; from then on every status update calls it, synchronously, with
    the new current status, once for each time it has been subscribed
    (once, for a function that was not subscribed before); an
    exception thrown by a callback is logged and never leaves the
    update, and the subscriber list stays as it was. *)
Theorem subscribe_then_updates env cb st us :
  let n := S (count_occ Nat.eq_dec (callbacks st) cb) in
  events (subscribe cb st) = []
  /\ exists st1 st',
       outcome (subscribe cb st) = Return st1
       /\ outcome (updates env us st1) = Return st'
       /\ calls_of cb (events (updates env us st1))
          = flat_map (replicate n) (statuses_after (currentStatus st) us)
       /\ errors_of cb (events (updates env us st1))
          = (n * length (List.filter (cb_throws env cb)
                           (statuses_after (currentStatus st) us)))%nat
       /\ callbacks st' = callbacks st ++ [cb]
       /\ (cb ∉ callbacks st ->
             calls_of cb (events (updates env us st1))
             = statuses_after (currentStatus st) us).
Proof.
  intros n. split; [reflexivity|].
  set (st1 := {| isMonitoring := isMonitoring st;
                 callbacks := callbacks st ++ [cb];
                 currentStatus := currentStatus st |}).
  destruct (updates_count env cb us st1) as (st' & Hout & Hsame & Hcalls & Herrs).
  assert (count_occ Nat.eq_dec (callbacks st1) cb = n) as Hn.
  { subst st1 n. cbn [callbacks]. rewrite count_occ_app. simpl.
    destruct (Nat.eq_dec cb cb); [simpl; by rewrite Nat.add_1_r | done]. }
  rewrite Hn in Hcalls, Herrs.
  exists st1, st'. split; [done|]. split; [done|]. split; [done|].
  split; [done|]. split; [done|].
  intros Hnot. rewrite Hcalls. subst n.
  assert (count_occ Nat.eq_dec (callbacks st) cb = 0%nat) as ->.
  { apply count_occ_not_In. by rewrite <- list_elem_of_In. }
  change (currentStatus st1) with (currentStatus st).
  generalize (statuses_after (currentStatus st) us). clear.
  induction l as [|s l IH]; [done|]. cbn [flat_map]. by rewrite IH.
Qed.

(** Callback [1] subscribes to a fresh monitor; the link then goes
    down and comes back: two calls, the first of which throws. *)
Lemma subscribe_then_updates_witness :
  exists st1,
    outcome (subscribe 1 Examples.fresh_monitor) = Return st1
    /\ length (calls_of 1 (events (updates Examples.flaky_env
                 [Examples.went_offline; Examples.went_online] st1))) = 2%nat
    /\ errors_of 1 (events (updates Examples.flaky_env
                 [Examples.went_offline; Examples.went_online] st1)) = 1%nat.
Proof.
  destruct (subscribe_then_updates Examples.flaky_env 1 Examples.fresh_monitor
              [Examples.went_offline; Examples.went_online])
    as (_ & st1 & st' & Hsub & _ & Hcalls & Herrs & _).
  exists st1. split; [exact Hsub|]. split.
  - rewrite Hcalls. reflexivity.
  - rewrite Herrs. reflexivity.
Defined.

(** C5 as stated fails at subscription time: subscribing emits no call
    at all, so the new callback does not see the current status until
    the next update. *)
Lemma subscribe_calls_nothing_counterexample :
  events (subscribe 1 Examples.fresh_monitor) = []
  /\ ~ In (Called 1 (currentStatus Examples.fresh_monitor))
          (events (subscribe 1 Examples.fresh_monitor)).
Proof. split; [reflexivity | intros []]. Qed.

(** C6: [performCheck] always returns a status.  With the link
    reported down the status is offline and no probe is sent; with a
    probe that resolves the status is online, [good] below 1000 ms and
    [poor] from there on; with a probe that fails the status is
    offline. *)
Theorem performCheck_status env st :
  exists status st',
    outcome (performCheck env st) = Return (status, st')
    /\ isOnline (currentStatus st') = isOnline status
    /\ connectionQuality (currentStatus st') = connectionQuality status
    /\ (navigator_onLine env = Some false ->
          isOnline status = false /\ connectionQuality status = offline
          /\ probes (events (performCheck env st)) = 0%nat)
    /\ (navigator_onLine env <> Some false -> fetch_resolves env = true ->
          isOnline status = true
          /\ latency status = Some (endTime env - startTime env)%Z
          /\ connectionQuality status
             = if (endTime env - startTime env <? 1000)%Z then good else poor)
    /\ (navigator_onLine env <> Some false -> fetch_resolves env = false ->
          isOnline status = false /\ connectionQuality status = offline).
Proof.
  unfold performCheck.
  assert (exists status evs,
             checkConnectivity env = (evs, Return status)
             /\ (navigator_onLine env = Some false ->
                   status = offline_status env /\ evs = [])
             /\ (navigator_onLine env <> Some false -> fetch_resolves env = true ->
                   status = {| isOnline := true; lastChecked := today env;
                               connectionQuality :=
                                 if (endTime env - startTime env <? 1000)%Z
                                 then good else poor;
                               latency := Some (endTime env - startTime env)%Z |})
             /\ (navigator_onLine env <> Some false -> fetch_resolves env = false ->
                   status = offline_status env))
    as (status & evs & Hcheck & Hdown & Hup & Hfail).
  { unfold checkConnectivity, fetch.
    destruct (navigator_onLine env) as [[|]|]; destruct (fetch_resolves env);
      simpl; eexists _, _; (split; [reflexivity|]); repeat split; try done. }
  rewrite Hcheck. cbn [bind]. rewrite updateStatus_eq. cbn [bind ret].
  eexists status, _. split; [reflexivity|]. simpl.
  split; [done|]. split; [done|]. split; [|split].
  - intros Hnav. destruct (Hdown Hnav) as [-> ->]. repeat split.
    unfold events. simpl. rewrite app_nil_r. apply notify_events_no_probe.
  - intros Hnav Hok. rewrite (Hup Hnav Hok). done.
  - intros Hnav Hko. rewrite (Hfail Hnav Hko). done.
Qed.

End MonitorSpec.

(* ===================================================================== *)
(** * The preparation pipeline *)
(* ===================================================================== *)

Module PreparationSpec.
Import JS Preparation.
#[local] Open Scope Z_scope.

Lemma updateProgress_guard u st :
  isPreparing (fst (updateProgress u st)) = isPreparing st.
Proof. reflexivity. Qed.

(** A turn of a run leaves the guard up when the run suspends and takes
    it down when the run returns. *)
Lemma resume_guard w pc st :
  match resume w pc st with
  | ((st', Suspend _), _) => isPreparing st' = isPreparing st
  | ((st', Done _), _) => isPreparing st' = false
  end.
Proof.
  destruct w as [fetch json ok [e|]], pc, fetch, json, ok; reflexivity.
Qed.

Lemma prepareContest_guard st :
  isPreparing st = false ->
  exists st' ps,
    prepareContest st = ((st', Suspend AwaitPythonDelay), ps)
    /\ isPreparing st' = true.
Proof.
  intros H. unfold prepareContest. rewrite H. simpl. eauto.
Qed.

Lemma prepareContest_rejected st :
  isPreparing st = true -> prepareContest st = ((st, Done false), []).
Proof. intros H. unfold prepareContest. by rewrite H. Qed.

Lemma step_guarded sys a : guarded sys -> guarded (step sys a).
Proof.
  intros [[Hflag Hnone] | [Hflag [t Hone]]]; destruct a as [w | i |]; simpl.
  - destruct (prepareContest_guard _ Hflag) as (st' & ps & -> & Hup).
    simpl. rewrite Hnone. right. eauto.
  - rewrite Hnone. simpl. by left.
  - left. done.
  - rewrite (prepareContest_rejected _ Hflag). simpl. right. eauto.
  - rewrite Hone. destruct i as [|i]; simpl; [|right; rewrite Hone; eauto].
    pose proof (resume_guard (world t) (at_ t) (state sys)) as Hg.
    destruct (resume (world t) (at_ t) (state sys)) as [[st' [pc|b]] ps]; simpl.
    + right. simpl. split; [congruence | eauto].
    + left. done.
  - right. eauto.
Qed.

Lemma fold_guarded acts : forall sys, guarded sys -> guarded (fold_left step acts sys).
Proof.
  induction acts as [|a acts IH]; intros sys H; simpl; [done|].
  apply IH, step_guarded, H.
Qed.

Lemma exec_guarded acts : guarded (exec acts).
Proof. apply fold_guarded. left. done. Qed.

(** C7: however calls, resumptions and resets are interleaved, at most
    one run is in flight and the guard is up exactly while one is; a
    call made meanwhile returns [false] at once and changes neither
    the progress nor what was published; and the turn in which a run
    returns, with either result, takes the guard down, so that the
    next call starts a run. *)
Theorem single_flight acts :
  let sys := exec acts in
  (length (inflight sys) <= 1)%nat
  /\ (isPreparing (state sys) = true <-> inflight sys <> [])
  /\ (forall w, inflight sys <> [] ->
        step sys (Call w)
        = {| state := state sys; inflight := inflight sys;
             published := published sys; returned := returned sys ++ [false] |})
  /\ (forall i b,
        returned (step sys (Resume i)) = returned sys ++ [b] ->
        isPreparing (state (step sys (Resume i))) = false
        /\ inflight (step sys (Resume i)) = []
        /\ forall w, inflight (step (step sys (Resume i)) (Call w))
                     = [ {| world := w; at_ := AwaitPythonDelay |} ]).
Proof.
  intros sys. pose proof (exec_guarded acts) as Hg. fold sys in Hg.
  assert (isPreparing (state sys) = true <-> inflight sys <> []) as Hiff.
  { destruct Hg as [[Hflag Hnone] | [Hflag [t Hone]]];
      rewrite Hflag; [rewrite Hnone | rewrite Hone]; split; done. }
  split; [|split; [exact Hiff|split]].
  - destruct Hg as [[_ ->] | [_ [t ->]]]; simpl; lia.
  - intros w Hbusy. apply Hiff in Hbusy. simpl.
    rewrite (prepareContest_rejected _ Hbusy). simpl. by rewrite app_nil_r.
  - intros i b Hret.
    pose proof (step_guarded sys (Resume i) Hg) as Hg'.
    assert (isPreparing (state (step sys (Resume i))) = false) as Hdown.
    { simpl in *. destruct (inflight sys !! i) as [t|] eqn:Hi.
      - pose proof (resume_guard (world t) (at_ t) (state sys)) as Hr.
        destruct (resume (world t) (at_ t) (state sys)) as [[st' [pc|b']] ps];
          simpl in *; [|done].
        exfalso. apply (f_equal length) in Hret.
        rewrite length_app in Hret. simpl in Hret. lia.
      - exfalso. apply (f_equal length) in Hret.
        rewrite length_app in Hret. simpl in Hret. lia. }
    destruct Hg' as [[_ Hnone] | [Hup _]]; [|congruence].
    split; [exact Hdown|]. split; [exact Hnone|].
    intros w. generalize dependent (step sys (Resume i)). intros sys' _ Hnone Hdown.
    destruct (prepareContest_guard _ Hdown) as (st' & ps & Hcall & _).
    cbn [step]. rewrite Hcall. simpl. by rewrite Hnone.
Qed.

(** A run started with the guard down always ends, within fifteen turns. *)
Lemma run_ends w st :
  isPreparing st = false ->
  exists st' b pubs, run 15 w st = Some ((st', b), pubs).
Proof.
  intros H. unfold run, prepareContest. rewrite H.
  destruct w as [[] [] [] [e|]]; eexists _, _, _; vm_compute; reflexivity.
Qed.

(** A run that fails in its last stage goes through the [catch] block:
    it publishes the error with progress 0, returns [false] and leaves
    the guard down. *)
Lemma run_quota_exceeded :
  exists st' pubs,
    run 15 Examples.quota_exceeded initial = Some ((st', false), pubs)
    /\ isPreparing st' = false
    /\ stage (current st') = error
    /\ progress (current st') = 0
    /\ details (current st') = str "The quota has been exceeded.".
Proof. eexists _, _. split; [vm_compute; reflexivity|]. vm_compute. done. Qed.

(** C4, as amended: a run that ends ready has published 100 last; its
    progress values never step down when the Python warm-up succeeds;
    when the warm-up fails they step down once, from 92 to 90, on the
    way to 100. *)
Theorem prepareContest_progress w st :
  isPreparing st = false ->
  exists st' b pubs,
    run 15 w st = Some ((st', b), pubs)
    /\ isPreparing st' = false
    /\ (b = true <-> stage (current st') = ready)
    /\ (b = true ->
          last (map progress pubs) = Some 100
          /\ (preload_ok w = true -> nondecreasing (map progress pubs) = true)
          /\ (preload_ok w = false ->
                map progress pubs
                = [0; 10; 30; 40; 60; 70; 85; 90; 92; 90; 95; 98; 100])).
Proof.
  intros H. unfold run, prepareContest. rewrite H.
  destruct w as [[] [] [] [e|]];
    eexists _, _, _; (split; [vm_compute; reflexivity|]);
    vm_compute; repeat split; intros; congruence.
Qed.

Lemma prepareContest_progress_witness :
  isPreparing initial = false
  /\ exists st' pubs,
       run 15 Examples.all_fine initial = Some ((st', true), pubs)
       /\ stage (current st') = ready
       /\ last (map progress pubs) = Some 100.
Proof.
  split; [reflexivity|].
  destruct (prepareContest_progress Examples.all_fine initial eq_refl)
    as (st' & b & pubs & Hrun & _ & Hready & Hlast).
  assert (b = true) as ->.
  { vm_compute in Hrun. injection Hrun as _ Hb _. by rewrite <- Hb. }
  exists st', pubs. split; [exact Hrun|]. split.
  - by apply Hready.
  - by apply Hlast.
Defined.

(** C4 as stated fails when Pyodide cannot be loaded: the run still
    ends ready, and its progress values go from 92 back to 90. *)
Lemma prepareContest_progress_counterexample :
  exists st' pubs,
    run 15 Examples.python_unavailable initial = Some ((st', true), pubs)
    /\ stage (current st') = ready
    /\ map progress pubs = [0; 10; 30; 40; 60; 70; 85; 90; 92; 90; 95; 98; 100]
    /\ nondecreasing (map progress pubs) = false.
Proof. eexists _, _. split; [vm_compute; reflexivity|]. vm_compute. done. Qed.

End PreparationSpec.

(* ===================================================================== *)
(** * The user state manager *)
(* ===================================================================== *)

Module UserStateSpec.
Import JS JSFacts Browser UserState.

Lemma removeItems_lookup_in (ks : list jsstring) : forall (ls : Storage) k,
  k ∈ ks -> fold_left (fun ls key => removeItem key ls) ks ls !! k = None.
Proof.
  assert (forall (ks : list jsstring) (ls : Storage) k,
             ls !! k = None ->
             fold_left (fun ls key => removeItem key ls) ks ls !! k = None) as Hkeep.
  { clear. induction ks as [|a ks IH]; intros ls k H; simpl; [done|].
    apply IH. unfold removeItem. rewrite lookup_delete. by case_decide. }
  induction ks as [|a ks IH]; intros ls k Hin; [by apply elem_of_nil in Hin|].
  simpl. destruct (decide (k = a)) as [->|Hne].
  - apply Hkeep. unfold removeItem. apply lookup_delete_eq.
  - apply IH. apply elem_of_cons in Hin as [|]; done.
Qed.

Lemma removeItems_lookup_notin (ks : list jsstring) : forall (ls : Storage) k,
  k ∉ ks -> fold_left (fun ls key => removeItem key ls) ks ls !! k = ls !! k.
Proof.
  induction ks as [|a ks IH]; intros ls k Hnot; [done|].
  apply not_elem_of_cons in Hnot as [Hne Hnot]. simpl.
  rewrite IH by done. unfold removeItem. by apply lookup_delete_ne.
Qed.

Lemma removeItems_lookup_none (ks : list jsstring) (ls : Storage) k :
  ls !! k = None -> fold_left (fun ls key => removeItem key ls) ks ls !! k = None.
Proof.
  intros H. destruct (decide (k ∈ ks)).
  - by apply removeItems_lookup_in.
  - by rewrite removeItems_lookup_notin.
Qed.

Lemma keys_spec (ls : Storage) k : k ∈ keys ls <-> is_Some (ls !! k).
Proof.
  unfold keys. rewrite list_elem_of_fmap. split.
  - intros [[k' v] [-> Hin]]. apply elem_of_map_to_list in Hin. eauto.
  - intros [v Hv]. exists (k, v). split; [done|]. by apply elem_of_map_to_list.
Qed.

(** After [resetAllUserState] no contest-related key is left. *)
Lemma resetAllUserState_cleared ls k :
  contest_related k = true -> getItem k (resetAllUserState ls) = None.
Proof.
  unfold contest_related, getItem, resetAllUserState.
  set (ls4 := removeItem INTERNET_VIOLATIONS_KEY _).
  rewrite !orb_true_iff, !str_eqb_eq.
  intros [[[[-> | ->] | ->] | ->] | Hspec].
  1-4: apply removeItems_lookup_none; subst ls4; unfold removeItem;
       rewrite !lookup_delete; repeat case_decide; done.
  destruct (ls4 !! k) as [v|] eqn:Hk; [|by apply removeItems_lookup_none].
  apply removeItems_lookup_in.
  apply list_elem_of_In, filter_In. split; [|done].
  apply list_elem_of_In, keys_spec. eauto.
Qed.

(** Every other key keeps its value. *)
Lemma resetAllUserState_other ls k :
  contest_related k = false -> getItem k (resetAllUserState ls) = getItem k ls.
Proof.
  unfold contest_related, getItem, resetAllUserState.
  rewrite !orb_false_iff. intros [[[[H1 H2] H3] H4] Hspec].
  rewrite removeItems_lookup_notin.
  - unfold removeItem. rewrite !lookup_delete.
    repeat case_decide; subst; try done;
      unfold str_eqb in *; by rewrite bool_decide_eq_false in *.
  - intros Hin. apply list_elem_of_In, filter_In in Hin as [_ Hin]. congruence.
Qed.

Lemma user_state_key_kept : contest_related USER_STATE_KEY = false.
Proof. reflexivity. Qed.

(** C10: with no user state stored the call clears the contest-related
    keys, records the new user id and returns [true], which is also
    what it does for a stored state of another user; it returns
    [false], leaving the storage alone, only when the stored state
    carries the new user id. *)
Theorem checkAndResetUserState_spec P newUserId ls :
  let r := checkAndResetUserState P newUserId ls in
  let recorded := JSON_stringify P (JObj [ (str "userId", JStr newUserId);
                                           (str "lastLogin", JStr (toISOString P)) ]) in
  (getItem USER_STATE_KEY ls = None -> r.1 = true)
  /\ (forall stored v,
        getItem USER_STATE_KEY ls = Some stored -> stored <> [] ->
        JSON_parse P stored = Some v -> truthy v = true ->
        get v (str "userId") <> Some (JStr newUserId) -> r.1 = true)
  /\ (r.1 = true ->
        r.2 = setCurrentUserState P newUserId (resetAllUserState ls)
        /\ (forall k, contest_related k = true -> getItem k r.2 = None)
        /\ getItem USER_STATE_KEY r.2 = Some recorded)
  /\ (r.1 = false ->
        r.2 = ls
        /\ exists stored v,
             getItem USER_STATE_KEY ls = Some stored
             /\ JSON_parse P stored = Some v
             /\ get v (str "userId") = Some (JStr newUserId)).
Proof.
  intros r recorded. subst r. unfold checkAndResetUserState.
  assert (forall ls', let ls2 := setCurrentUserState P newUserId (resetAllUserState ls') in
            (forall k, contest_related k = true -> getItem k ls2 = None)
            /\ getItem USER_STATE_KEY ls2 = Some recorded) as Hreset.
  { intros ls' ls2. subst ls2. unfold setCurrentUserState, setItem, getItem. split.
    - intros k Hk. rewrite lookup_insert_ne.
      + by apply resetAllUserState_cleared.
      + intros <-. by rewrite user_state_key_kept in Hk.
    - apply lookup_insert_eq. }
  unfold getCurrentUserState.
  destruct (getItem USER_STATE_KEY ls) as [[|c s]|] eqn:Hstored; simpl.
  - repeat split; try done; apply Hreset.
  - destruct (JSON_parse P (c :: s)) as [v|] eqn:Hparse; simpl.
    + destruct (truthy v) eqn:Htruthy; simpl.
      * destruct (get v (str "userId")) as [[| | | |uid| |]|] eqn:Hget; simpl;
          try (repeat split; try done; apply Hreset).
        unfold is_string, str_eqb. case_bool_decide as Hid; simpl.
        -- subst uid. split; [done|]. split.
           { intros stored v' [= <-] _ Hp Ht Hne. congruence. }
           split; [done|]. intros _. split; [done|]. eauto.
        -- repeat split; try done; apply Hreset.
      * split; [done|]. split.
        { intros stored v' [= <-] _ Hp Ht. congruence. }
        split; [|done]. intros _. split; [done|]. apply Hreset.
    + split; [done|]. split.
      { intros stored v' [= <-] _ Hp. congruence. }
      split; [|done]. intros _. split; [done|]. apply Hreset.
  - repeat split; try done; apply Hreset.
Qed.

End UserStateSpec.

(* ===================================================================== *)
(** * Scoring, submission and persistence *)
(* ===================================================================== *)

Module SolverSpec.
Import JS JSFacts Browser Solver.
#[local] Open Scope Z_scope.

(** ** The score of a problem *)

Lemma reduce_from_zero {A} (f : Q -> A -> nat -> Q) :
  (forall r idx, f 0%Q r idx = 0%Q) ->
  forall arr idx, reduce_from f idx arr 0%Q = 0%Q.
Proof.
  intros Hf. induction arr as [|r arr IH]; intros idx; simpl; [done|].
  by rewrite Hf.
Qed.

(** As soon as the problem has a test case, test cases that declare no
    points are worth nothing: the even split is out of reach. *)
Lemma score_undeclared testCases results :
  testCases <> [] ->
  Forall (fun tc => points tc = None) testCases ->
  score testCases results = 0%Q.
Proof.
  intros Hne Hall. unfold score, reduce.
  apply reduce_from_zero. intros r idx.
  destruct testCases as [|tc tcs]; [done|]. cbn [map].
  assert (default 0%Q ((points_or_0 tc :: map points_or_0 tcs) !! idx) = 0%Q) as ->.
  { destruct (_ !! idx) as [q|] eqn:Hq; [|done]. simpl.
    apply list_elem_of_lookup_2 in Hq.
    change (q ∈ map points_or_0 (tc :: tcs)) in Hq.
    apply list_elem_of_fmap in Hq as (tc' & -> & Hin).
    rewrite Forall_forall in Hall. unfold points_or_0.
    by rewrite (Hall tc' Hin). }
  by destruct (Runner.passed r).
Qed.

Lemma awarded_nil results : awarded [] results = 0%Q.
Proof. by destruct results. Qed.

(** With at least one test case, the score is the sum of the declared
    points of the passed results. *)
Lemma score_declared testCases results :
  testCases <> [] ->
  (score testCases results == awarded (map points_or_0 testCases) results)%Q.
Proof.
  intros Hne. unfold score, reduce.
  set (pts := map points_or_0 testCases).
  assert (pts <> []) as Hpts by (subst pts; by destruct testCases).
  set (f := fun (sum : Q) (r : Runner.ExecutionResult) (idx : nat) =>
              (sum + (if Runner.passed r then default 0%Q (pts !! idx) else 0))%Q).
  transitivity (reduce_from f 0 results 0%Q).
  { assert (forall rs idx acc,
               reduce_from
                 (fun sum r idx =>
                    (sum + (if Runner.passed r
                            then match pts with
                                 | [] => 100 / inject_Z (Z.max 1 (Z.of_nat (length results)))
                                 | _ => default 0 (pts !! idx)
                                 end
                            else 0))%Q) idx rs acc
               = reduce_from f idx rs acc) as Heq.
    { induction rs as [|r rs IH]; intros idx acc; simpl; [done|].
      rewrite IH. f_equal. subst f. simpl. by destruct pts. }
    by rewrite Heq. }
  assert (forall rs idx acc,
             (reduce_from f idx rs acc == acc + awarded (drop idx pts) rs)%Q) as Hsum.
  { induction rs as [|r rs IH]; intros idx acc; simpl.
    - destruct (drop idx pts); simpl; ring.
    - rewrite IH. subst f. simpl.
      destruct (pts !! idx) as [p|] eqn:Hp.
      + rewrite (drop_S _ _ _ Hp). simpl. destruct (Runner.passed r); ring.
      + apply lookup_ge_None in Hp.
        rewrite !drop_ge by lia. rewrite awarded_nil. simpl.
        destruct (Runner.passed r); ring. }
  rewrite Hsum. rewrite drop_0. ring.
Qed.

(** C2, on the failing input: two test cases without declared points,
    both passed.  The score is 0 out of a displayed maximum of 0, where
    the even split gives 50 for each passed case, 100 in all. *)
Theorem score_even_split_missing :
  let results := [Examples.passed_result true; Examples.passed_result true] in
  score Examples.two_plain_cases results = 0%Q
  /\ perProblemMax Examples.two_plain_cases = 0%Q
  /\ ~ (score Examples.two_plain_cases results == 100)%Q
  /\ (score [] results == 100)%Q.
Proof.
  split; [reflexivity|]. split; [reflexivity|]. split; [|reflexivity].
  vm_compute. discriminate.
Qed.

(** ** The retry chain *)

Lemma posts_app evs evs' : posts (evs ++ evs') = (posts evs + posts evs')%nat.
Proof. unfold posts. by rewrite List.filter_app, length_app. Qed.

Lemma retry_delays_app evs evs' :
  retry_delays (evs ++ evs') = retry_delays evs ++ retry_delays evs'.
Proof. apply omap_app. Qed.

(** One [try] block posts at most once and sets no retry timer. *)
Lemma try_block_events a :
  (posts (try_block a).1 <= 1)%nat /\ retry_delays (try_block a).1 = [].
Proof.
  unfold try_block. destruct (payload a), (response a) as [|[]|]; simpl; auto.
Qed.

Lemma submitFinalResults_from world k ls :
  let r := submitFinalResults world k ls in
  r.2 = ls
  /\ (posts r.1 <= Nat.max 1 (maxRetries - k))%nat
  /\ retry_delays r.1 `prefix_of` schedule k.
Proof.
  funelim (submitFinalResults world k ls);
    try match goal with H : _ = submitFinalResults _ _ _ |- _ => clear H end;
    try (pose proof (try_block_events (world retryCount (getItem FINAL_KEY ls)))
           as [Hp Hd];
         match goal with
         | Hb : try_block _ = _ |- _ => rewrite Hb in Hp, Hd; simpl in Hp, Hd
         end).
  - split; [done|]. split; [unfold posts; simpl; lia | apply prefix_nil].
  - simpl. split; [done|]. split; [lia|]. rewrite Hd. apply prefix_nil.
  - destruct (submitFinalResults world (S retryCount) ls) as [rest ls'] eqn:Hrest.
    simpl in *. destruct H as (-> & Hposts & Hdelays).
    split; [done|]. split.
    + rewrite posts_app. unfold maxRetries in *.
      change (posts (_ :: _ :: rest)) with (posts rest). lia.
    + rewrite !retry_delays_app, Hd. simpl.
      unfold schedule. unfold maxRetries in *.
      replace (3 - 1 - retryCount)%nat with (S (3 - 1 - S retryCount)) by lia.
      simpl. by apply prefix_cons.
  - simpl. split; [done|]. split.
    + rewrite posts_app.
      change (posts [ToastGaveUp; NavigateAfter 3000]) with 0%nat. lia.
    + rewrite retry_delays_app, Hd. simpl. apply prefix_nil.
Qed.

(** C3: a chain started with retry count 0 posts at most three times;
    its retry timers are set, in this order, to 1000 ms and 2000 ms
    (the [k]-th, counting from 0, to [2^k] seconds); and the storage,
    the persisted final result included, is as it was, however the
    chain ends. *)
Theorem submitFinalResults_bounded world ls :
  let r := submitFinalResults world 0 ls in
  (posts r.1 <= 3)%nat
  /\ retry_delays r.1 `prefix_of` [1000; 2000]
  /\ (forall k d, retry_delays r.1 !! k = Some d -> d = 2 ^ Z.of_nat k * 1000)
  /\ r.2 = ls
  /\ getItem FINAL_KEY r.2 = getItem FINAL_KEY ls.
Proof.
  intros r. destruct (submitFinalResults_from world 0 ls) as (Hls & Hposts & Hpre).
  fold r in Hls, Hposts, Hpre.
  split; [unfold maxRetries in Hposts; lia|].
  split; [exact Hpre|]. split; [|split; [done | by rewrite Hls]].
  intros k d Hk.
  pose proof (prefix_lookup_Some _ _ _ _ Hk Hpre) as Hsched.
  destruct k as [|[|k]]; simpl in Hsched; [| |done];
    injection Hsched as <-; reflexivity.
Qed.

(** The example of the specification: two failures, then success. *)
Lemma submitFinalResults_third_time_lucky :
  let r := submitFinalResults Examples.third_time_lucky 0
             (<[FINAL_KEY := Examples.final_result_text]> ∅) in
  posts r.1 = 3%nat
  /\ retry_delays r.1 = [1000; 2000]
  /\ List.filter (fun ev => match ev with ToastSuccess => true | _ => false end) r.1
     = [ToastSuccess]
  /\ getItem FINAL_KEY r.2 = Some Examples.final_result_text.
Proof. vm_compute. done. Qed.

(** Three failures: the chain gives up after the third POST and the
    stored final result is still there. *)
Lemma submitFinalResults_gives_up :
  let r := submitFinalResults Examples.server_down 0
             (<[FINAL_KEY := Examples.final_result_text]> ∅) in
  posts r.1 = 3%nat
  /\ retry_delays r.1 = [1000; 2000]
  /\ In ToastGaveUp r.1
  /\ getItem FINAL_KEY r.2 = Some Examples.final_result_text.
Proof. vm_compute. intuition. Qed.

(** ** Persistence of the session state *)

Section RoundTrip.
Variable P : Platform.

(** [v || 0] is [v] for a number [v]. *)
Lemma js_or_num z : js_or (num z) (num 0) = num z.
Proof.
  unfold js_or, num. simpl. destruct (z =? 0) eqn:Hz; [|done].
  apply Z.eqb_eq in Hz. by subst z.
Qed.

Lemma js_or_num_ambient z now :
  js_or (js_or (num z) (num now)) (num 0) = num (if z =? 0 then now else z).
Proof.
  unfold js_or at 2. unfold num at 1. simpl.
  destruct (z =? 0); simpl; [apply js_or_num|].
  unfold js_or, num. simpl. destruct (z =? 0) eqn:Hz; [|done].
  apply Z.eqb_eq in Hz. by subst z.
Qed.

(** Saving the session state does not touch the user state. *)
Lemma isSameUser_saveContestState uid s ls :
  UserState.isSameUser P uid (saveContestState P s ls)
  = UserState.isSameUser P uid ls.
Proof.
  unfold UserState.isSameUser, UserState.getCurrentUserId,
    UserState.getCurrentUserState, saveContestState, getItem, setItem.
  by rewrite lookup_insert_ne.
Qed.

Lemma hydrate_contestState s timeLeft_now now :
  hydrate (contestState s) timeLeft_now now
  = Some {| h_contestStarted := js_or (JBool (contestStarted s)) (JBool false);
            h_currentProblemIndex := js_or (num (currentProblemIndex s)) (num 0);
            h_problemResults := js_or (JArr (problemResults s)) (JArr []);
            h_contestCompleted := js_or (JBool (contestCompleted s)) (JBool false);
            h_timeLeft := js_or (js_or (num (timeLeft s)) (num timeLeft_now)) (num 0);
            h_contestStartTime := js_or (num (contestStartTime s)) (num now);
            h_violationCount := js_or (num (violationCount s)) (num 0);
            h_penaltyPoints := js_or (num (penaltyPoints s)) (num 0) |}.
Proof. reflexivity. Qed.

(** What the effect takes over from a saved state, whenever it runs:
    the time left falls back on the component's own, [timeLeft_now],
    when the persisted one is 0. *)
Lemma rehydrate_saved s uid ls timeLeft_now now :
  uid <> [] ->
  UserState.isSameUser P uid ls = true ->
  JSON_stringify P (contestState s) <> [] ->
  JSON_parse P (JSON_stringify P (contestState s)) = Some (contestState s) ->
  exists h,
    rehydrate P (Some uid) timeLeft_now now (saveContestState P s ls) = Rehydrated h
    /\ h_currentProblemIndex h = num (currentProblemIndex s)
    /\ h_problemResults h = JArr (problemResults s)
    /\ h_violationCount h = num (violationCount s)
    /\ h_penaltyPoints h = num (penaltyPoints s)
    /\ h_timeLeft h = num (if timeLeft s =? 0 then timeLeft_now else timeLeft s).
Proof.
  intros Huid Hsame Htext Hcodec. unfold rehydrate.
  destruct uid as [|c u]; [done|].
  rewrite isSameUser_saveContestState, Hsame.
  unfold saveContestState at 1, getItem, setItem. rewrite lookup_insert_eq.
  destruct (JSON_stringify P (contestState s)) as [|d saved] eqn:Htxt; [done|].
  rewrite Hcodec, hydrate_contestState.
  eexists. split; [reflexivity|]. simpl.
  rewrite !js_or_num, js_or_num_ambient. repeat split.
Qed.

(** C8: a session state saved by [saveContestState] and rehydrated
    when the page is loaded, for the same user and with a codec that
    reads the saved document back, comes back with the persisted
    problem index, problem results, time left, violation count and
    penalty points. *)
Theorem saveContestState_rehydrate s uid ls now :
  uid <> [] ->
  UserState.isSameUser P uid ls = true ->
  JSON_stringify P (contestState s) <> [] ->
  JSON_parse P (JSON_stringify P (contestState s)) = Some (contestState s) ->
  exists h,
    rehydrate_on_mount P (Some uid) now (saveContestState P s ls) = Rehydrated h
    /\ h_currentProblemIndex h = num (currentProblemIndex s)
    /\ h_problemResults h = JArr (problemResults s)
    /\ h_timeLeft h = num (timeLeft s)
    /\ h_violationCount h = num (violationCount s)
    /\ h_penaltyPoints h = num (penaltyPoints s).
Proof.
  intros Huid Hsame Htext Hcodec. unfold rehydrate_on_mount.
  destruct (rehydrate_saved s uid ls initial_timeLeft now Huid Hsame Htext Hcodec)
    as (h & Hh & Hidx & Hres & Hviol & Hpen & Htime).
  exists h. repeat split; try done.
  rewrite Htime. unfold initial_timeLeft.
  destruct (timeLeft s =? 0) eqn:Hz; [|done].
  apply Z.eqb_eq in Hz. by rewrite Hz.
Qed.

End RoundTrip.

(** Alice reloads the page with 90 seconds left, and again after the
    contest has run out of time. *)
Lemma saveContestState_rehydrate_witness :
  Examples.alice <> []
  /\ UserState.isSameUser Examples.browser Examples.alice Examples.alice_storage = true
  /\ (exists h,
        rehydrate_on_mount Examples.browser (Some Examples.alice) 1700000009000
          (saveContestState Examples.browser Examples.running Examples.alice_storage)
        = Rehydrated h
        /\ h_timeLeft h = num 90
        /\ h_penaltyPoints h = num 20)
  /\ (exists h,
        rehydrate_on_mount Examples.browser (Some Examples.alice) 1700000009000
          (saveContestState Examples.browser Examples.timed_out Examples.alice_storage)
        = Rehydrated h
        /\ h_timeLeft h = num 0).
Proof.
  assert (Examples.alice <> []) as Hid by discriminate.
  assert (UserState.isSameUser Examples.browser Examples.alice Examples.alice_storage
          = true) as Hsame by reflexivity.
  split; [exact Hid|]. split; [exact Hsame|]. split.
  - destruct (saveContestState_rehydrate Examples.browser Examples.running
                Examples.alice Examples.alice_storage 1700000009000 Hid Hsame)
      as (h & Hh & _ & _ & Htime & _ & Hpen).
    + vm_compute. discriminate.
    + vm_compute. reflexivity.
    + exists h. split; [exact Hh|]. split; [exact Htime | exact Hpen].
  - destruct (saveContestState_rehydrate Examples.browser Examples.timed_out
                Examples.alice Examples.alice_storage 1700000009000 Hid Hsame)
      as (h & Hh & _ & _ & Htime & _).
    + vm_compute. discriminate.
    + vm_compute. reflexivity.
    + exists h. split; [exact Hh | exact Htime].
Defined.

End SolverSpec.

(* ===================================================================== *)
(** * The runner at its edges *)
(* ===================================================================== *)

Module RunnerEdges.
Import JS JSFacts Runner RunnerApi.


(** X2: for a language that cannot run (neither of the two, or Python
    before its interpreter is ready) [runCode] does not throw: every
    test case gets a failed result with empty output and the message of
    the refusal, and no program is run. *)
Theorem runCode_refused P code language testCases :
  isLanguageSupported P language = false ->
  runCode P code language testCases
  = map (failure P code (refusal language)) testCases.
Proof.
  intros Hno. unfold runCode. apply map_ext. intros tc.
  unfold isLanguageSupported in Hno. unfold executeTestCase, refusal, failure, failed.
  destruct (str_eqb language (str "javascript")) eqn:Hjs; [done|].
  destruct (str_eqb language (str "python")) eqn:Hpy; [by rewrite Hno|done].
Qed.

Lemma runCode_refused_witness :
  isLanguageSupported Examples.py_prints_6 (str "cpp") = false
  /\ error <$> runCode Examples.py_prints_6 (str "int main(){}") (str "cpp")
                 [Examples.sum_case; Examples.sum_case_padded]
     = [Some (str "Unsupported language: cpp"); Some (str "Unsupported language: cpp")].
Proof.
  split; [reflexivity|].
  rewrite (runCode_refused Examples.py_prints_6 (str "int main(){}") (str "cpp")
             [Examples.sum_case; Examples.sum_case_padded] eq_refl).
  reflexivity.
Defined.

(** X3: the two language queries agree: a language is listed by
    [getSupportedLanguages] exactly when [isLanguageSupported] accepts
    it. *)
Theorem supported_languages_agree P language :
  language ∈ getSupportedLanguages P <-> isLanguageSupported P language = true.
Proof.
  unfold getSupportedLanguages, isLanguageSupported.
  destruct (str_eqb language (str "javascript")) eqn:Hjs.
  - apply str_eqb_eq in Hjs. subst. split; [done|]. intros _. apply elem_of_app. left.
    apply list_elem_of_singleton. done.
  - assert (language <> str "javascript") as Hne.
    { intros ->. unfold str_eqb in Hjs. by rewrite bool_decide_eq_false in Hjs. }
    destruct (str_eqb language (str "python")) eqn:Hpy.
    + apply str_eqb_eq in Hpy. subst. destruct (isPythonReady P); split; try done.
      * intros _. apply elem_of_app. right. by apply list_elem_of_singleton.
      * rewrite app_nil_r. intros Hin%list_elem_of_singleton. done.
    + assert (language <> str "python") as Hne'.
      { intros ->. unfold str_eqb in Hpy. by rewrite bool_decide_eq_false in Hpy. }
      split; [|done]. intros Hin. apply elem_of_app in Hin as [Hin|Hin].
      * by apply list_elem_of_singleton in Hin.
      * destruct (isPythonReady P); [|by apply elem_of_nil in Hin].
        by apply list_elem_of_singleton in Hin.
Qed.



End RunnerEdges.

(* ===================================================================== *)
(** * The life of the connectivity monitor *)
(* ===================================================================== *)

Module MonitorLifecycle.
Import Eff Monitor Lifecycle.
#[local] Set Warnings "-clear-no-such-hyp".

Section Facts.
Variable env : Env.

Lemma remove_first_last cb cbs :
  cb ∉ cbs -> remove_first cb (cbs ++ [cb]) = cbs.
Proof.
  induction cbs as [|c cbs IH]; simpl; [by rewrite Nat.eqb_refl|].
  intros [Hne Hnot]%not_elem_of_cons.
  assert (Nat.eqb c cb = false) as -> by (apply Nat.eqb_neq; congruence).
  by rewrite IH.
Qed.

Lemma remove_first_absent cb cbs : cb ∉ cbs -> remove_first cb cbs = cbs.
Proof.
  induction cbs as [|c cbs IH]; simpl; [done|].
  intros [Hne Hnot]%not_elem_of_cons.
  assert (Nat.eqb c cb = false) as -> by (apply Nat.eqb_neq; congruence).
  by rewrite IH.
Qed.

(** A series of updates never calls a function that is not subscribed. *)
Lemma updates_silent cb us : forall st,
  cb ∉ callbacks st -> calls_of cb (events (updates env us st)) = [].
Proof.
  induction us as [|u us IH]; intros st Hnot; [done|].
  cbn [updates]. rewrite MonitorSpec.updateStatus_eq. cbn [bind].
  set (st1 := {| isMonitoring := isMonitoring st; callbacks := callbacks st;
                 currentStatus := spread (currentStatus st) u |}).
  specialize (IH st1 Hnot).
  destruct (updates env us st1) as [evs r]. unfold events in *. simpl in *.
  rewrite MonitorSpec.calls_of_app, IH.
  by destruct (MonitorSpec.notify_events_other env cb (callbacks st)
                 (spread (currentStatus st) u) Hnot) as [-> _].
Qed.

Lemma published_app evs evs' : published (evs ++ evs') = published evs ++ published evs'.
Proof. apply omap_app. Qed.

Lemma published_notify cbs s :
  published (notify_events env cbs s) = replicate (length cbs) s.
Proof.
  induction cbs as [|c cbs IH]; [done|].
  change (notify_events env (c :: cbs) s)
    with ((Called c s :: (if cb_throws env c s then [ConsoleError c] else []))
            ++ notify_events env cbs s).
  rewrite published_app, IH. by destruct (cb_throws env c s).
Qed.

End Facts.

(** X5: the closure returned by [subscribe] undoes the subscription.
    For a function that was not subscribed before, the subscriber list
    is afterwards what it was and no later status update calls the
    function; calling the closure once more, or for a function that is
    not subscribed, changes nothing. *)
Theorem unsubscribe_undoes_subscribe env cb st us :
  cb ∉ callbacks st ->
  exists st1 st2,
    outcome (subscribe cb st) = Return st1
    /\ outcome (unsubscribe cb st1) = Return st2
    /\ callbacks st2 = callbacks st
    /\ currentStatus st2 = currentStatus st
    /\ calls_of cb (events (updates env us st2)) = []
    /\ outcome (unsubscribe cb st2) = Return st2.
Proof.
  intros Hnot. eexists _, _. split; [reflexivity|]. split; [reflexivity|].
  simpl. rewrite (remove_first_last cb _ Hnot).
  split; [done|]. split; [done|]. split.
  - by apply updates_silent.
  - unfold unsubscribe, ret, outcome. simpl.
    rewrite (remove_first_absent cb _ Hnot). done.
Qed.

Lemma unsubscribe_undoes_subscribe_witness :
  (1%nat ∉ callbacks Examples.fresh_monitor)
  /\ exists st2,
       outcome (bind (subscribe 1 Examples.fresh_monitor) (unsubscribe 1)) = Return st2
       /\ calls_of 1 (events (updates Examples.flaky_env
                                [Examples.went_offline; Examples.went_online] st2)) = [].
Proof.
  assert (1%nat ∉ callbacks Examples.fresh_monitor) as Hnot
    by (simpl; apply not_elem_of_nil).
  split; [exact Hnot|].
  destruct (unsubscribe_undoes_subscribe Examples.flaky_env 1 Examples.fresh_monitor
              [Examples.went_offline; Examples.went_online] Hnot)
    as (st1 & st2 & Hsub & Hunsub & _ & _ & Hcalls & _).
  exists st2. split; [|exact Hcalls].
  injection Hsub as <-. exact Hunsub.
Defined.

Lemma decided_consistent cur b t q l :
  (b = false <-> q = offline) ->
  consistent (spread cur {| p_isOnline := Some b; p_lastChecked := Some t;
                            p_connectionQuality := Some q; p_latency := l |}).
Proof. done. Qed.

(** What [checkConnectivity] resolves to is one of two shapes. *)
Lemma checkConnectivity_shapes e :
  exists evs status,
    checkConnectivity e = (evs, Return status)
    /\ published evs = []
    /\ (isOnline status = false <-> connectionQuality status = offline)
    /\ (isOnline status = false -> latency status = None).
Proof.
  unfold checkConnectivity, fetch.
  destruct (navigator_onLine e) as [[|]|]; destruct (fetch_resolves e); simpl;
    eexists _, _; (split; [reflexivity|]); simpl; (split; [reflexivity|]);
    try (split; [split|]; done);
    destruct (endTime e - startTime e <? 1000)%Z; split; try split; done.
Qed.

(** One input taken from a consistent status: the handler returns, the
    new status is consistent, and so is every status handed out. *)
Lemma handle_consistent env i st :
  consistent (currentStatus st) ->
  exists evs st',
    handle env i st = (evs, Return st')
    /\ consistent (currentStatus st')
    /\ Forall consistent (published evs).
Proof.
  intros Hst. destruct i as [now | now | e | cb | cb]; simpl.
  - rewrite MonitorSpec.updateStatus_eq. eexists _, _. split; [reflexivity|].
    split; [done|]. rewrite published_notify. by apply Forall_replicate.
  - rewrite MonitorSpec.updateStatus_eq. eexists _, _. split; [reflexivity|].
    split; [done|]. rewrite published_notify. by apply Forall_replicate.
  - unfold performCheck.
    destruct (checkConnectivity_shapes e) as (evs & status & -> & Hquiet & Hcons & _).
    cbn [bind]. rewrite MonitorSpec.updateStatus_eq. cbn [bind ret].
    eexists _, _. split; [reflexivity|]. simpl.
    assert (consistent (spread (currentStatus st) (as_partial status))) as Hnew.
    { unfold consistent, spread, as_partial. simpl. exact Hcons. }
    split; [exact Hnew|].
    rewrite !app_nil_r, published_app, published_notify, Hquiet.
    by apply Forall_replicate.
  - eexists _, _. split; [reflexivity|]. done.
  - eexists _, _. split; [reflexivity|]. done.
Qed.

(** X6: the monitor keeps [isOnline] and [connectionQuality] in step.
    From construction on, through any series of browser events, checks
    (in any environments), subscriptions and unsubscriptions, no handler
    throws, the current status is offline in both fields or in neither,
    and the same holds for every status handed to a callback. *)
Theorem status_stays_consistent env onLine now inputs :
  exists st',
    outcome (handle_all env inputs (create onLine now)) = Return st'
    /\ consistent (currentStatus st')
    /\ Forall consistent (published (events (handle_all env inputs (create onLine now)))).
Proof.
  assert (forall st, consistent (currentStatus st) ->
            exists st',
              outcome (handle_all env inputs st) = Return st'
              /\ consistent (currentStatus st')
              /\ Forall consistent (published (events (handle_all env inputs st))))
    as Hall.
  { induction inputs as [|i inputs IH]; intros st Hst.
    - exists st. split; [done|]. split; [exact Hst | apply Forall_nil_2].
    - cbn [handle_all].
      destruct (handle_consistent env i st Hst) as (evs & st1 & -> & Hst1 & Hevs).
      cbn [bind]. destruct (IH st1 Hst1) as (st' & Hout & Hst' & Hpub).
      destruct (handle_all env inputs st1) as [evs' r]. unfold outcome, events in *.
      simpl in *. exists st'. split; [done|]. split; [done|].
      rewrite published_app. by apply Forall_app. }
  apply Hall. unfold create, consistent. simpl. by destruct onLine.
Qed.

(** X7: a check that finds the link down, or whose probe fails, returns
    a status without latency, but the monitor's current status keeps the
    latency it had: after a successful probe, [getCurrentStatus] goes on
    reporting that probe's latency while offline. *)
Theorem offline_check_keeps_latency e st :
  navigator_onLine e = Some false \/ fetch_resolves e = false ->
  exists status st',
    outcome (performCheck e st) = Return (status, st')
    /\ isOnline status = false
    /\ latency status = None
    /\ isOnline (getCurrentStatus st') = false
    /\ latency (getCurrentStatus st') = latency (currentStatus st).
Proof.
  intros Hdown. unfold performCheck.
  assert (exists evs, checkConnectivity e = (evs, Return (offline_status e)))
    as [evs ->].
  { unfold checkConnectivity, fetch.
    destruct Hdown as [-> | Hfail]; [by eexists|]. rewrite Hfail.
    destruct (navigator_onLine e) as [[|]|]; simpl; by eexists. }
  cbn [bind]. rewrite MonitorSpec.updateStatus_eq. cbn [bind ret].
  eexists _, _. split; [reflexivity|]. done.
Qed.

Lemma offline_check_keeps_latency_witness :
  fetch_resolves Examples.probe_fails = false
  /\ exists status st',
       outcome (performCheck Examples.probe_fails Examples.probed_monitor)
       = Return (status, st')
       /\ latency status = None
       /\ latency (getCurrentStatus st') = Some 120%Z.
Proof.
  split; [reflexivity|].
  destruct (offline_check_keeps_latency Examples.probe_fails Examples.probed_monitor
              (or_intror eq_refl))
    as (status & st' & Hout & _ & Hnone & _ & Hkept).
  exists status, st'. split; [exact Hout|]. split; [exact Hnone | exact Hkept].
Defined.

(** ** Timers *)

Lemma command_tidy p c : tidy p -> tidy (command p c).
Proof.
  intros Htidy. pose proof Htidy as (Hflag & Hlive & Hfresh).
  assert (tidy (stopMonitoring p)) as Hstop.
  { unfold tidy, stopMonitoring. simpl. split; [done|]. split.
    - destruct (checkInterval (monitor p)) as [h|]; simpl; [|done].
      rewrite Hlive. set_solver.
    - intros h. destruct (checkInterval (monitor p)) as [h'|]; simpl.
      + intros Hin. apply Hfresh. set_solver.
      + apply Hfresh. }
  destruct c as [ms | |]; simpl; [| exact Hstop | exact Hstop].
  unfold startMonitoring. destruct (isMonitoring (base (monitor p))) eqn:Hmon.
  - exact Htidy.
  - unfold tidy. simpl. split; [done|].
    symmetry in Hflag. apply bool_decide_eq_false in Hflag.
    destruct (checkInterval (monitor p)) as [h|]; [by destruct Hflag|].
    rewrite Hlive. split; [set_solver|].
    intros h Hin. assert (h = next_handle (timers p)) as -> by set_solver. lia.
Qed.

(** X8: starting and stopping never leaks an interval timer.  After any
    series of [startMonitoring], [stopMonitoring] and [destroy] calls
    the monitor is flagged as monitoring exactly when it holds a timer
    handle, and that handle is the one live timer; with the flag down no
    timer is live.  Both calls are idempotent: a second
    [startMonitoring] changes nothing, not even the interval, and a
    second [stopMonitoring] changes nothing. *)
Theorem monitoring_timers st cmds ms ms' :
  let p := fold_left command cmds (open_page st) in
  isMonitoring (base (monitor p)) = bool_decide (is_Some (checkInterval (monitor p)))
  /\ live (timers p) = match checkInterval (monitor p) with
                       | Some handle => {[ handle ]}
                       | None => ∅
                       end
  /\ startMonitoring ms' (startMonitoring ms p) = startMonitoring ms p
  /\ stopMonitoring (stopMonitoring p) = stopMonitoring p
  /\ live (timers (stopMonitoring p)) = ∅.
Proof.
  intros p.
  assert (tidy p) as (Hflag & Hlive & Hfresh).
  { subst p. generalize (open_page st), (conj eq_refl (conj eq_refl
      (fun h (H : h ∈ live (timers (open_page st))) => False_ind _ (not_elem_of_empty h H)))
      : tidy (open_page st)).
    induction cmds as [|c cmds IH]; intros q Hq; simpl; [done|].
    apply IH, command_tidy, Hq. }
  split; [exact Hflag|]. split; [exact Hlive|]. split; [|split].
  - unfold startMonitoring at 2 3.
    destruct (isMonitoring (base (monitor p))) eqn:Hmon.
    + unfold startMonitoring. by rewrite Hmon.
    + unfold startMonitoring. done.
  - unfold stopMonitoring. simpl. done.
  - unfold stopMonitoring. simpl. destruct (checkInterval (monitor p)) as [h|]; simpl.
    + rewrite Hlive. set_solver.
    + exact Hlive.
Qed.

End MonitorLifecycle.

(* ===================================================================== *)
(** * The violation log and the penalty *)
(* ===================================================================== *)

Module ViolationSpec.
Import JS Browser Violations.
#[local] Open Scope Z_scope.

(** X9: a violation is appended to the stored log.  When the log reads
    as an array, and the codec reads the new text back,
    [handleInternetViolation] returns the record it made (contest,
    user, time and the current status of the monitor), the history
    afterwards is the history before followed by the document of that
    record, in which the date [lastChecked] has become its ISO text,
    and no other key of the storage changes. *)
Theorem violation_appended toJSON P contestId userId st ls items :
  getViolationHistory P ls = Eff.Return (JArr items) ->
  let v := violation P contestId userId st in
  let text := JSON_stringify P (JArr (items ++ [violation_json toJSON v])) in
  text <> [] ->
  JSON_parse P text = Some (JArr (items ++ [violation_json toJSON v])) ->
  exists ls',
    handleInternetViolation toJSON P contestId userId st ls = (Eff.Return v, ls')
    /\ status v = Monitor.currentStatus st
    /\ getViolationHistory P ls'
       = Eff.Return (JArr (items ++ [violation_json toJSON v]))
    /\ get (status_json toJSON (status v)) (str "lastChecked")
       = Some (JStr (toJSON (Monitor.lastChecked (Monitor.currentStatus st))))
    /\ (forall k, k <> VIOLATIONS_KEY -> getItem k ls' = getItem k ls).
Proof.
  intros Hhist v text Htext Hback.
  unfold getViolationHistory in Hhist. unfold handleInternetViolation.
  destruct (JSON_parse P (stored_log ls)) as [doc|] eqn:Hdoc; [|done].
  injection Hhist as ->. fold v. fold text.
  eexists. split; [reflexivity|]. split; [reflexivity|]. split; [|split].
  - unfold getViolationHistory, stored_log, getItem, setItem.
    rewrite lookup_insert_eq. destruct text as [|c t] eqn:Ht; [done|].
    by rewrite Hback.
  - reflexivity.
  - intros k Hk. unfold getItem, setItem. by rewrite lookup_insert_ne.
Qed.

Lemma violation_appended_witness :
  getViolationHistory Examples.logging_browser ∅ = Eff.Return (JArr [])
  /\ exists ls',
       handleInternetViolation Examples.iso Examples.logging_browser (str "c42")
         Examples.alice Examples.fresh_monitor ∅
       = (Eff.Return Examples.first_violation, ls')
       /\ getViolationHistory Examples.logging_browser ls'
          = Eff.Return (JArr [violation_json Examples.iso Examples.first_violation]).
Proof.
  assert (getViolationHistory Examples.logging_browser ∅ = Eff.Return (JArr [])) as Hlog
    by (vm_compute; reflexivity).
  split; [exact Hlog|].
  destruct (violation_appended Examples.iso Examples.logging_browser (str "c42")
              Examples.alice Examples.fresh_monitor ∅ [] Hlog)
    as (ls' & Hcall & _ & Hhist & _).
  - vm_compute. discriminate.
  - vm_compute. reflexivity.
  - exists ls'. split; [exact Hcall | exact Hhist].
Defined.

(** X10: a violation is counted only if it could be logged.  With a
    user and a contest id, a log that reads as an array makes the
    component add 1 to the violation count and 10 to the penalty; a log
    that does not parse, or parses to something else, makes the
    monitor's method throw, and the component leaves the function with
    both counters, and the storage, as they were.  Without a user or a
    contest id nothing happens at all. *)
Theorem violation_counted_iff_logged toJSON P userId id st ls c :
  id <> [] ->
  (forall items,
     JSON_parse P (stored_log ls) = Some (JArr items) ->
     exists ls', Session.handleInternetViolation toJSON P (Some userId) (Some id) st ls c
                 = (Eff.Return tt, ls', Session.counted c))
  /\ ((forall items, JSON_parse P (stored_log ls) <> Some (JArr items)) ->
      exists e, Session.handleInternetViolation toJSON P (Some userId) (Some id) st ls c
                = (Eff.Throw e, ls, c))
  /\ Session.handleInternetViolation toJSON P None (Some id) st ls c
     = (Eff.Return tt, ls, c)
  /\ Session.handleInternetViolation toJSON P (Some userId) None st ls c
     = (Eff.Return tt, ls, c).
Proof.
  intros Hid. destruct id as [|i d]; [done|].
  unfold Session.handleInternetViolation, handleInternetViolation.
  split; [|split; [|done]].
  - intros items ->. eexists. reflexivity.
  - intros Hbad. destruct (JSON_parse P (stored_log ls)) as [[| | | | |items|]|];
      try (eexists; reflexivity).
    by destruct (Hbad items).
Qed.

Lemma violation_counted_iff_logged_witness :
  str "c42" <> []
  /\ exists e,
       Session.handleInternetViolation Examples.iso Examples.logging_browser
         (Some Examples.alice) (Some (str "c42")) Examples.fresh_monitor
         Examples.garbled_log Examples.no_violations
       = (Eff.Throw e, Examples.garbled_log, Examples.no_violations).
Proof.
  assert (str "c42" <> []) as Hid by discriminate.
  split; [exact Hid|].
  destruct (violation_counted_iff_logged Examples.iso Examples.logging_browser
              Examples.alice (str "c42") Examples.fresh_monitor Examples.garbled_log
              Examples.no_violations Hid) as (_ & Hbad & _).
  apply Hbad. intros items. vm_compute. discriminate.
Defined.

Lemma handle_keeps_ratio toJSON P user id st ls c :
  Session.penaltyPoints c = 10 * Session.violationCount c ->
  let '(_, _, c') := Session.handleInternetViolation toJSON P user id st ls c in
  Session.penaltyPoints c' = 10 * Session.violationCount c'
  /\ Session.violationCount c <= Session.violationCount c' <= Session.violationCount c + 1.
Proof.
  intros Hc. unfold Session.handleInternetViolation.
  destruct user as [u|], id as [[|i d]|]; try (split; [done | lia]).
  destruct (handleInternetViolation toJSON P (i :: d) u st ls) as [[v|e] ls'];
    simpl; lia.
Qed.

(** X11: the penalty is ten points per counted violation.  Through any
    series of detections, logged or not, [penaltyPoints] stays ten
    times [violationCount], and the count grows by at most one per
    detection: by none for a detection whose log entry could not be
    written. *)
Theorem penalty_is_ten_per_violation toJSON P user id sts ls c :
  Session.penaltyPoints c = 10 * Session.violationCount c ->
  let c' := (Session.detections toJSON P user id sts ls c).2 in
  Session.penaltyPoints c' = 10 * Session.violationCount c'
  /\ Session.violationCount c <= Session.violationCount c'
     <= Session.violationCount c + Z.of_nat (length sts).
Proof.
  intros Hc c'. subst c'.
  revert ls c Hc. induction sts as [|st sts IH]; intros ls c Hc.
  - simpl. lia.
  - cbn [Session.detections].
    pose proof (handle_keeps_ratio toJSON P user id st ls c Hc) as Hstep.
    destruct (Session.handleInternetViolation toJSON P user id st ls c)
      as [[out ls1] c1].
    destruct Hstep as [Hc1 Hr1]. destruct (IH ls1 c1 Hc1) as [H1 H2].
    split; [exact H1|]. cbn [length]. lia.
Qed.

Lemma penalty_is_ten_per_violation_witness :
  Session.penaltyPoints Examples.no_violations
  = 10 * Session.violationCount Examples.no_violations
  /\ Session.penaltyPoints
       (Session.detections Examples.iso Examples.logging_browser (Some Examples.alice)
          (Some (str "c42")) [Examples.fresh_monitor; Examples.fresh_monitor] ∅
          Examples.no_violations).2
     = 20.
Proof.
  split; [reflexivity|].
  destruct (penalty_is_ten_per_violation Examples.iso Examples.logging_browser
              (Some Examples.alice) (Some (str "c42"))
              [Examples.fresh_monitor; Examples.fresh_monitor] ∅
              Examples.no_violations eq_refl) as (Hratio & _).
  rewrite Hratio. vm_compute. reflexivity.
Defined.

End ViolationSpec.

(* ===================================================================== *)
(** * The session: clock, countdown and sequence of problems *)
(* ===================================================================== *)

Module SessionSpec.
Import JS Browser Session.
#[local] Open Scope Z_scope.

(** ** [formatTime] *)

(** The two-character fields of the numbers below 100. *)
Lemma fields_table :
  forallb (fun k => (length (padStart 2 zero (toString (Z.of_nat k))) =? 2)%nat)
          (seq 0 100) = true
  /\ NoDup ((fun k => padStart 2 zero (toString (Z.of_nat k))) <$> seq 0 100).
Proof.
  split; [vm_compute; reflexivity|].
  apply (bool_decide_unpack _). vm_compute. reflexivity.
Qed.

Lemma field_length n :
  0 <= n < 100 -> length (padStart 2 zero (toString n)) = 2%nat.
Proof.
  intros Hn. destruct fields_table as [Hlen _].
  rewrite forallb_forall in Hlen.
  specialize (Hlen (Z.to_nat n)). rewrite Z2Nat.id in Hlen by lia.
  apply Nat.eqb_eq, Hlen, in_seq. lia.
Qed.

Lemma field_inj n m :
  0 <= n < 100 -> 0 <= m < 100 ->
  padStart 2 zero (toString n) = padStart 2 zero (toString m) -> n = m.
Proof.
  intros Hn Hm Heq. destruct fields_table as [_ Hnodup].
  assert (forall k, 0 <= k < 100 ->
            ((fun k => padStart 2 zero (toString (Z.of_nat k))) <$> seq 0 100)
              !! Z.to_nat k = Some (padStart 2 zero (toString k))) as Hat.
  { intros k Hk. rewrite list_lookup_fmap, lookup_seq_lt by lia.
    simpl. by rewrite Z2Nat.id by lia. }
  pose proof (Hat n Hn) as H1. pose proof (Hat m Hm) as H2. rewrite <- Heq in H2.
  pose proof (NoDup_lookup _ _ _ _ Hnodup H1 H2). lia.
Qed.

(** X12: below a hundred hours the clock text is [HH:MM:SS]: eight
    characters, and different numbers of seconds give different
    texts. *)
Theorem formatTime_clock s1 s2 :
  0 <= s1 < 360000 -> 0 <= s2 < 360000 ->
  length (formatTime s1) = 8%nat
  /\ (formatTime s1 = formatTime s2 -> s1 = s2).
Proof.
  intros H1 H2. unfold formatTime.
  rewrite !Z.rem_mod_nonneg by lia.
  assert (forall s, 0 <= s < 360000 ->
            0 <= s / 3600 < 100 /\ 0 <= s mod 3600 / 60 < 100 /\ 0 <= s mod 60 < 100)
    as Hfields.
  { intros s Hs. Z.div_mod_to_equations. lia. }
  destruct (Hfields s1 H1) as (Hh1 & Hm1 & Hs1).
  destruct (Hfields s2 H2) as (Hh2 & Hm2 & Hs2).
  split.
  - rewrite !length_app, !field_length by done. reflexivity.
  - intros Heq.
    apply app_inj_1 in Heq as [Hh Heq]; [|by rewrite !field_length].
    apply app_inj_1 in Heq as [_ Heq]; [|done].
    apply app_inj_1 in Heq as [Hm Heq]; [|by rewrite !field_length].
    apply app_inj_1 in Heq as [_ Hs]; [|done].
    apply field_inj in Hh, Hm, Hs; try done.
    Z.div_mod_to_equations. lia.
Qed.

Lemma formatTime_clock_witness :
  0 <= 3725 < 360000 /\ 0 <= 3726 < 360000
  /\ formatTime 3725 = str "01:02:05"
  /\ length (formatTime 3725) = 8%nat
  /\ (formatTime 3725 = formatTime 3726 -> 3725 = 3726).
Proof.
  assert (0 <= 3725 < 360000) as H1 by lia.
  assert (0 <= 3726 < 360000) as H2 by lia.
  split; [exact H1|]. split; [exact H2|]. split; [vm_compute; reflexivity|].
  exact (formatTime_clock 3725 3726 H1 H2).
Defined.

(** ** The countdown *)

Lemma ticks_S n c : ticks (S n) c = tick (ticks n c).
Proof. reflexivity. Qed.

(** X13: a contest started with [t] seconds on the clock counts down by
    one a second, stops at 0 and is completed by the timer exactly once,
    at the [t]-th second, not before and not again. *)
Theorem countdown_completes_once t n :
  0 < t ->
  let c := ticks n {| timeLeft := t; contestStarted := true;
                      contestCompleted := false; completions := 0 |} in
  timeLeft c = Z.max 0 (t - Z.of_nat n)
  /\ completions c = (if t <=? Z.of_nat n then 1%nat else 0%nat)
  /\ contestCompleted c = (t <=? Z.of_nat n)
  /\ contestStarted c = negb (t <=? Z.of_nat n).
Proof.
  intros Ht. induction n as [|n IH].
  - cbv [ticks Nat.iter nat_rect timeLeft completions contestCompleted contestStarted].
    destruct (Z.leb_spec t (Z.of_nat 0)); [lia|]. repeat split; try done. lia.
  - cbv zeta in *. rewrite ticks_S.
    destruct (ticks n _) as [tl cs cc k].
    cbn [timeLeft completions contestCompleted contestStarted] in IH.
    destruct IH as (-> & -> & -> & ->). unfold tick.
    cbn [timeLeft completions contestCompleted contestStarted].
    destruct (Z.leb_spec t (Z.of_nat n)), (Z.leb_spec t (Z.of_nat (S n)));
      try lia; cbn [negb andb].
    + cbn. repeat split; try done. lia.
    + destruct (Z.ltb_spec 0 (Z.max 0 (t - Z.of_nat n))); [|lia].
      destruct (Z.leb_spec (Z.max 0 (t - Z.of_nat n)) 1); [|lia].
      cbn. repeat split; try done. lia.
    + destruct (Z.ltb_spec 0 (Z.max 0 (t - Z.of_nat n))); [|lia].
      destruct (Z.leb_spec (Z.max 0 (t - Z.of_nat n)) 1); [lia|].
      cbn. repeat split; try done. lia.
Qed.

Lemma countdown_completes_once_witness :
  0 < 3
  /\ map (fun n => completions
                     (ticks n {| timeLeft := 3; contestStarted := true;
                                 contestCompleted := false; completions := 0 |}))
         [2; 3; 10]%nat = [0; 1; 1]%nat.
Proof.
  assert (0 < 3) as Ht by lia. split; [exact Ht|].
  pose proof (countdown_completes_once 3 2 Ht) as (_ & H2 & _).
  pose proof (countdown_completes_once 3 3 Ht) as (_ & H3 & _).
  pose proof (countdown_completes_once 3 10 Ht) as (_ & H10 & _).
  cbn [map]. rewrite H2, H3, H10. reflexivity.
Defined.

(** ** The sequence of problems *)




End SessionSpec.

(* ===================================================================== *)
(** * The subscribers of the preparation pipeline *)
(* ===================================================================== *)

Module SubscriberSpec.
Import Eff Preparation Subscribers.

Lemma forEach_guarded throws p cbs cb :
  let m := forEach cbs (fun callback =>
             try_catch (call throws callback p)
                       (fun _ => emit (ConsoleError callback))) in
  outcome m = Return tt
  /\ calls_of cb (events m) = replicate (count_occ Nat.eq_dec cbs cb) p.
Proof.
  cbv zeta. induction cbs as [|c cbs [IHo IHc]]; [done|].
  cbn [forEach count_occ].
  destruct (forEach cbs _) as [evs o]. unfold outcome, events in *. simpl in IHo, IHc.
  subst o. unfold call, bind, emit, try_catch, throw, ret.
  destruct (throws c p); simpl;
    destruct (Nat.eqb_spec c cb), (Nat.eq_dec c cb); try done; simpl; by rewrite IHc.
Qed.

(** X15: the pipeline calls a new subscriber at once with the current
    progress, outside any [try]: an exception of that first call leaves
    [subscribe] with the callback already in the list, where every
    later update calls it again, now guarded, so that no update ever
    throws. *)
Theorem subscribe_calls_at_once throws cb pl u :
  let s := subscribe throws cb pl in
  let r := updateProgress throws u s.1 in
  events s.2 = [Called cb (current (core pl))]
  /\ (outcome s.2 = Return tt <-> throws cb (current (core pl)) = false)
  /\ callbacks s.1 = callbacks pl ++ [cb]
  /\ outcome r.2 = Return tt
  /\ calls_of cb (events r.2)
     = replicate (S (count_occ Nat.eq_dec (callbacks pl) cb)) (current (core r.1)).
Proof.
  cbv zeta. unfold subscribe, updateProgress. cbn [fst snd core callbacks].
  split; [|split; [|split; [done|]]].
  - unfold call, bind, emit, events. by destruct (throws cb _).
  - unfold call, bind, emit, outcome, throw, ret.
    destruct (throws cb _); simpl; split; intros; done.
  - destruct (forEach_guarded throws
                (current (Preparation.updateProgress u (core pl)).1)
                (callbacks pl ++ [cb]) cb) as [Ho Hc].
    split; [exact Ho|]. rewrite Hc, count_occ_app. simpl.
    destruct (Nat.eq_dec cb cb); [|done].
    by rewrite Nat.add_1_r.
Qed.

End SubscriberSpec.

(* ===================================================================== *)
(** * The prepared flag *)
(* ===================================================================== *)

Module PreparedSpec.
Import JS JSFacts Browser Prepared.

Lemma prepared_at_key_fresh id : prepared_at_key id <> prepared_key id.
Proof.
  intros H. apply (f_equal length) in H. unfold prepared_at_key, prepared_key, scoped in H.
  destruct id as [[|c s]|]; repeat (rewrite ?length_app in H; simpl in H); lia.
Qed.

Lemma problems_key_fresh id id' : problems_key id <> prepared_key id'.
Proof.
  intros H. apply (f_equal (take 11)) in H.
  destruct id as [[|c s]|], id' as [[|c' s']|]; vm_compute in H; discriminate.
Qed.

Lemma prepared_key_contest id : UserState.contest_related (prepared_key id) = true.
Proof.
  unfold UserState.contest_related.
  assert (UserState.user_specific (prepared_key id) = true) as ->;
    [|by rewrite !orb_true_r].
  destruct id as [[|c s]|]; reflexivity.
Qed.

Lemma problems_key_contest id : UserState.contest_related (problems_key id) = true.
Proof.
  unfold UserState.contest_related.
  assert (UserState.user_specific (problems_key id) = true) as ->;
    [|by rewrite !orb_true_r].
  destruct id as [[|c s]|]; reflexivity.
Qed.

(** X16: the prepared flag of a contest is set by [finalizePreparation]
    and taken back by [resetPreparation], whatever was stored before.
    Neither touches the flag of a contest whose key is not one of the
    keys written: both the key [contest_prepared_<id>] and the key
    [contest_prepared_at_<id>] of the contest at hand have to differ
    from it, which fails for the pair of ids [x] and [at_x]. *)
Theorem prepared_flag_round_trip P id ls :
  isContestPrepared id (finalizePreparation P id ls) = true
  /\ isContestPrepared id (resetPreparation id ls) = false
  /\ (forall id',
        prepared_key id' <> prepared_key id ->
        prepared_key id' <> prepared_at_key id ->
        isContestPrepared id' (finalizePreparation P id ls) = isContestPrepared id' ls
        /\ isContestPrepared id' (resetPreparation id ls) = isContestPrepared id' ls).
Proof.
  unfold isContestPrepared, finalizePreparation, resetPreparation,
    getItem, setItem, removeItem.
  split; [|split].
  - rewrite lookup_insert_ne by apply prepared_at_key_fresh.
    rewrite lookup_insert_eq. reflexivity.
  - rewrite lookup_delete_ne by apply problems_key_fresh.
    rewrite lookup_delete_ne by apply prepared_at_key_fresh.
    by rewrite lookup_delete_eq.
  - intros id' H1 H2. split.
    + by rewrite !lookup_insert_ne.
    + rewrite lookup_delete_ne by apply problems_key_fresh.
      by rewrite !lookup_delete_ne.
Qed.

(** The clash of the two key families: preparing contest [x] writes
    the time of preparation where the flag of contest [at_x] is
    kept. *)
Lemma prepared_key_clash P ls :
  isContestPrepared (Some (str "at_x"))
    (finalizePreparation P (Some (str "x"))
       (finalizePreparation P (Some (str "at_x")) ls))
  = str_eqb (toISOString P) (str "true").
Proof.
  unfold isContestPrepared, finalizePreparation, getItem, setItem.
  change (prepared_key (Some (str "at_x"))) with (prepared_at_key (Some (str "x"))).
  by rewrite lookup_insert_eq.
Qed.

(** X17: a change of user takes every contest back to unprepared.
    When [checkAndResetUserState] reports a reset, no contest is
    prepared any more and no list of problems is cached, whatever the
    contest id. *)
Theorem user_change_unprepares P newUserId ls id :
  (UserState.checkAndResetUserState P newUserId ls).1 = true ->
  let ls' := (UserState.checkAndResetUserState P newUserId ls).2 in
  isContestPrepared id ls' = false
  /\ getItem (problems_key id) ls' = None.
Proof.
  unfold UserState.checkAndResetUserState.
  assert (forall k, UserState.contest_related k = true ->
            getItem k (UserState.setCurrentUserState P newUserId
                         (UserState.resetAllUserState ls)) = None) as Hgone.
  { intros k Hk. unfold UserState.setCurrentUserState, getItem, setItem.
    rewrite lookup_insert_ne.
    - by apply UserStateSpec.resetAllUserState_cleared.
    - intros <-. by rewrite UserStateSpec.user_state_key_kept in Hk. }
  destruct (negb _); [|destruct (negb _)]; cbn [fst snd]; intros Hreset; try done;
    (split; [unfold isContestPrepared; rewrite Hgone; [done|apply prepared_key_contest]
            | apply Hgone, problems_key_contest]).
Qed.

Lemma user_change_unprepares_witness :
  (UserState.checkAndResetUserState Examples.browser (str "u2")
     (finalizePreparation Examples.browser (Some (str "c42")) Examples.alice_storage)).1
  = true
  /\ isContestPrepared (Some (str "c42"))
       (finalizePreparation Examples.browser (Some (str "c42")) Examples.alice_storage)
     = true
  /\ isContestPrepared (Some (str "c42"))
       (UserState.checkAndResetUserState Examples.browser (str "u2")
          (finalizePreparation Examples.browser (Some (str "c42"))
             Examples.alice_storage)).2
     = false.
Proof.
  assert ((UserState.checkAndResetUserState Examples.browser (str "u2")
             (finalizePreparation Examples.browser (Some (str "c42"))
                Examples.alice_storage)).1 = true) as Hreset
    by (vm_compute; reflexivity).
  split; [exact Hreset|]. split; [vm_compute; reflexivity|].
  exact (proj1 (user_change_unprepares Examples.browser (str "u2") _
                  (Some (str "c42")) Hreset)).
Defined.

End PreparedSpec.

(* ===================================================================== *)
(** * Logging in, reloading and logging out *)
(* ===================================================================== *)

Module AccountSpec.
Import JS JSFacts Browser UserState.

(** The record [setCurrentUserState] writes for a user. *)
#[local] Abbreviation recorded P userId :=
  (JObj [ (str "userId", JStr userId); (str "lastLogin", JStr (toISOString P)) ]).

Section Facts.
Variable P : Platform.

Lemma getCurrentUserState_recorded userId ls :
  JSON_stringify P (recorded P userId) <> [] ->
  JSON_parse P (JSON_stringify P (recorded P userId)) = Some (recorded P userId) ->
  getCurrentUserState P (setCurrentUserState P userId ls) = recorded P userId.
Proof.
  intros Hne Hparse. unfold getCurrentUserState, setCurrentUserState, getItem, setItem.
  rewrite lookup_insert_eq.
  destruct (JSON_stringify P (recorded P userId)) as [|c s] eqn:Htext; [done|].
  by rewrite Hparse.
Qed.

Lemma is_string_refl s : is_string (JStr s) s = true.
Proof. unfold is_string, str_eqb. by apply bool_decide_eq_true. Qed.

Lemma userId_recorded userId :
  get (recorded P userId) (str "userId") = Some (JStr userId).
Proof. reflexivity. Qed.

Lemma isSameUser_recorded userId ls :
  userId <> [] ->
  JSON_stringify P (recorded P userId) <> [] ->
  JSON_parse P (JSON_stringify P (recorded P userId)) = Some (recorded P userId) ->
  isSameUser P userId (setCurrentUserState P userId ls) = true.
Proof.
  intros Hid Hne Hparse. unfold isSameUser, getCurrentUserId.
  rewrite getCurrentUserState_recorded by done.
  rewrite userId_recorded. cbn [default from_option id].
  destruct userId as [|c u]; [done|]. apply is_string_refl.
Qed.

Lemma contest_state_cleared userId ls :
  getItem (str "contest_state")
          (setCurrentUserState P userId (resetAllUserState ls)) = None.
Proof.
  unfold setCurrentUserState, getItem, setItem.
  rewrite lookup_insert_ne by done.
  by apply UserStateSpec.resetAllUserState_cleared.
Qed.

End Facts.

(** X18: once [checkAndResetUserState] has run for a user, that user is
    the current one: [isSameUser] answers [true] and a second call finds
    nothing to reset and leaves the storage alone.  The id is not empty
    and the codec reads back the record it wrote. *)
Theorem relogin_keeps_state P userId ls :
  let record := JObj [ (str "userId", JStr userId);
                       (str "lastLogin", JStr (toISOString P)) ] in
  userId <> [] ->
  JSON_stringify P record <> [] ->
  JSON_parse P (JSON_stringify P record) = Some record ->
  let ls' := (checkAndResetUserState P userId ls).2 in
  isSameUser P userId ls' = true
  /\ checkAndResetUserState P userId ls' = (false, ls').
Proof.
  intros record Hid Hne Hparse. cbv zeta.
  assert (forall ls0, let ls' := setCurrentUserState P userId ls0 in
            isSameUser P userId ls' = true
            /\ checkAndResetUserState P userId ls' = (false, ls')) as Hset.
  { intros ls0 ls'. split; [by apply isSameUser_recorded|].
    unfold checkAndResetUserState. subst ls'.
    rewrite getCurrentUserState_recorded by done.
    rewrite userId_recorded. cbn [truthy negb default from_option id].
    by rewrite is_string_refl. }
  destruct (checkAndResetUserState P userId ls) as [b ls'] eqn:Hcheck. cbn [snd].
  unfold checkAndResetUserState in Hcheck.
  destruct (negb (truthy (getCurrentUserState P ls))) eqn:Htruthy;
    [injection Hcheck as <- <-; apply Hset|].
  destruct (negb (is_string _ userId)) eqn:Hsame;
    injection Hcheck as <- <-; [apply Hset|].
  split.
  - unfold isSameUser, getCurrentUserId.
    apply negb_false_iff in Hsame.
    destruct (default JUndefined (get (getCurrentUserState P ls) (str "userId")))
      as [| | | |s| |]; try done.
    apply str_eqb_eq in Hsame as ->. destruct userId; [done|]. apply is_string_refl.
  - unfold checkAndResetUserState. by rewrite Htruthy, Hsame.
Qed.

Lemma relogin_keeps_state_witness :
  Examples.alice <> []
  /\ isSameUser Examples.browser Examples.alice
       (checkAndResetUserState Examples.browser Examples.alice ∅).2 = true.
Proof.
  assert (Examples.alice <> []) as Hid by discriminate.
  split; [exact Hid|].
  refine (proj1 (relogin_keeps_state Examples.browser Examples.alice ∅ Hid _ _)).
  - vm_compute. discriminate.
  - vm_compute. reflexivity.
Defined.

(** X19: what one user saved is never rehydrated for another.  When the
    check at login reports a reset, the rehydration effect of the
    contest page finds the new user to be the current one and no saved
    contest state, whatever the storage held before: it takes nothing
    over and starts the contest afresh, the timer keeping the value the
    component holds if that is positive and getting 7200 seconds
    otherwise. *)
Theorem new_user_starts_fresh P userId ls timeLeft_now now prev :
  let record := JObj [ (str "userId", JStr userId);
                       (str "lastLogin", JStr (toISOString P)) ] in
  userId <> [] ->
  JSON_stringify P record <> [] ->
  JSON_parse P (JSON_stringify P record) = Some record ->
  (checkAndResetUserState P userId ls).1 = true ->
  let loaded := Solver.rehydrate P (Some userId) timeLeft_now now
                  (checkAndResetUserState P userId ls).2 in
  loaded = Solver.StartFresh 7200
  /\ getItem (str "contest_state") (checkAndResetUserState P userId ls).2 = None
  /\ Solver.timeLeft_after loaded prev
     = Solver.num (if (0 <? prev)%Z then prev else 7200%Z).
Proof.
  intros record Hid Hne Hparse.
  assert (Solver.rehydrate P (Some userId) timeLeft_now now
            (setCurrentUserState P userId (resetAllUserState ls))
          = Solver.StartFresh 7200) as Hfresh.
  { unfold Solver.rehydrate. destruct userId as [|c u] eqn:Hu; [done|].
    rewrite isSameUser_recorded by done.
    by rewrite contest_state_cleared. }
  unfold checkAndResetUserState.
  destruct (negb (truthy _));
    [|destruct (negb (is_string _ _)); [|done]];
    intros _; cbn [snd]; cbv zeta; rewrite Hfresh;
    (split; [done|]; split; [apply contest_state_cleared | done]).
Qed.

Lemma new_user_starts_fresh_witness :
  Examples.alice <> []
  /\ Solver.rehydrate Examples.browser (Some Examples.alice) 0 0
       (checkAndResetUserState Examples.browser Examples.alice
          Examples.left_by_bob).2
     = Solver.StartFresh 7200
  /\ Solver.timeLeft_after
       (Solver.rehydrate Examples.browser (Some Examples.alice) 0 0
          (checkAndResetUserState Examples.browser Examples.alice
             Examples.left_by_bob).2) 3600
     = Solver.num 3600.
Proof.
  assert (Examples.alice <> []) as Hid by discriminate.
  split; [exact Hid|].
  destruct (new_user_starts_fresh Examples.browser Examples.alice
              Examples.left_by_bob 0 0 3600 Hid) as (Hfresh & _ & Htimer).
  - vm_compute. discriminate.
  - vm_compute. reflexivity.
  - vm_compute. reflexivity.
  - split; [exact Hfresh | exact Htimer].
Defined.

(** X20: logging out ends the session on the device.  Afterwards the
    provider holds no user and no token; a reload finds no token and
    fetches nothing; no current user is recorded, so the next login, of
    whichever user, reports a reset; the token, the cached user, the
    user record and every contest-related key are gone, and every
    other key is as it was. *)
Theorem logout_ends_session P a r newUserId :
  let a' := Auth.logout a in
  Auth.isAuthenticated a' = false
  /\ Auth.load P r (Auth.storage a')
     = {| Auth.user := JNull; Auth.token := None; Auth.loading := false;
          Auth.storage := Auth.storage a' |}
  /\ getCurrentUserId P (Auth.storage a') = JNull
  /\ (checkAndResetUserState P newUserId (Auth.storage a')).1 = true
  /\ (forall k,
        getItem k (Auth.storage a')
        = if contest_related k || str_eqb k USER_STATE_KEY || str_eqb k Auth.TOKEN_KEY
          then None else getItem k (Auth.storage a)).
Proof.
  cbv zeta.
  assert (forall k,
            getItem k (Auth.storage (Auth.logout a))
            = if contest_related k || str_eqb k USER_STATE_KEY || str_eqb k Auth.TOKEN_KEY
              then None else getItem k (Auth.storage a)) as Hkeys.
  { intros k. unfold Auth.logout, clearUserState. cbn [Auth.storage].
    unfold getItem at 1, removeItem. rewrite !lookup_delete.
    destruct (contest_related k) eqn:Hk; cbn [orb].
    - repeat case_decide; try done.
      by apply UserStateSpec.resetAllUserState_cleared.
    - unfold str_eqb.
      case_decide as Hcache; [subst k; vm_compute in Hk; discriminate|].
      repeat case_decide; repeat case_bool_decide; subst; cbn [orb]; try done.
      by apply UserStateSpec.resetAllUserState_other. }
  assert (getCurrentUserState P (Auth.storage (Auth.logout a)) = JNull) as Hnone.
  { unfold getCurrentUserState. rewrite Hkeys.
    by rewrite UserStateSpec.user_state_key_kept. }
  split; [done|]. split; [|split; [|split; [|exact Hkeys]]].
  - unfold Auth.load. by rewrite Hkeys.
  - unfold getCurrentUserId. by rewrite Hnone.
  - unfold checkAndResetUserState. by rewrite Hnone.
Qed.

(** X21: after a login, a reload without network restores the user
    from the cache.  The token of the login is found, the request for
    the user fails with anything but a 401, and the provider ends up
    authenticated as the user who logged in, with the storage
    untouched; the token is not empty and the codec reads back the
    cached user. *)
Theorem offline_reload_restores_user P u userToken a status :
  userToken <> [] ->
  JSON_stringify P (Auth.userData u) <> [] ->
  JSON_parse P (JSON_stringify P (Auth.userData u)) = Some (Auth.userData u) ->
  status <> Some 401%Z ->
  let ls := Auth.storage (Auth.login P u userToken a) in
  Auth.load P (Auth.Rejected status) ls
  = {| Auth.user := Auth.userData u; Auth.token := Some userToken;
       Auth.loading := false; Auth.storage := ls |}
  /\ Auth.isAuthenticated (Auth.load P (Auth.Rejected status) ls) = true.
Proof.
  intros Htok Hne Hparse Hstatus ls.
  assert (Auth.load P (Auth.Rejected status) ls
          = {| Auth.user := Auth.userData u; Auth.token := Some userToken;
               Auth.loading := false; Auth.storage := ls |}) as Hload.
  { unfold Auth.load. subst ls. unfold Auth.login. cbn [Auth.storage].
    unfold getItem at 1, setItem at 1 2.
    rewrite lookup_insert_ne by done. rewrite lookup_insert_eq.
    destruct userToken as [|c t]; [done|].
    unfold Auth.fetchUser. rewrite bool_decide_eq_false_2 by done.
    cbn [Auth.storage]. unfold getItem, setItem. rewrite lookup_insert_eq.
    destruct (JSON_stringify P (Auth.userData u)) as [|c' t'] eqn:Htext; [done|].
    by rewrite Hparse. }
  split; [exact Hload|]. rewrite Hload.
  unfold Auth.isAuthenticated. cbn. by destruct userToken.
Qed.

Lemma offline_reload_restores_user_witness :
  Auth.isAuthenticated
    (Auth.load Examples.bobs_browser (Auth.Rejected None)
       (Auth.storage (Auth.login Examples.bobs_browser Examples.bob (str "t1")
                        Examples.signed_out)))
  = true.
Proof.
  refine (proj2 (offline_reload_restores_user Examples.bobs_browser Examples.bob
                   (str "t1") Examples.signed_out None _ _ _ _)).
  - discriminate.
  - vm_compute. discriminate.
  - vm_compute. reflexivity.
  - discriminate.
Defined.

End AccountSpec.

(* ===================================================================== *)
(** * How a submission chain ends *)
(* ===================================================================== *)

Module SubmitSpec.
Import JS Browser Solver.
#[local] Open Scope Z_scope.

Lemma try_block_shapes a :
  match try_block a with
  | (evs, true) => evs = [] \/ evs = [Post]
  | (evs, false) => evs = [ToastMissing] \/ evs = [Post; ToastSuccess; NavigateAfter 2000]
  end.
Proof.
  unfold try_block. destruct (payload a), (response a) as [|[]|]; auto.
Qed.

Lemma schedule_step k :
  (k < maxRetries - 1)%nat -> schedule k = delay k :: schedule (S k).
Proof.
  intros Hk. unfold schedule, maxRetries in *.
  replace (3 - 1 - k)%nat with (S (3 - 1 - S k)) by lia. reflexivity.
Qed.

Lemma schedule_done k : ~ (k < maxRetries - 1)%nat -> schedule k = [].
Proof.
  intros Hk. unfold schedule, maxRetries in *.
  replace (3 - 1 - k)%nat with 0%nat by lia. reflexivity.
Qed.

Lemma retry_delays_app_cons evs d rest t s :
  (evs = [] \/ evs = [Post]) ->
  retry_delays (evs ++ [ToastRetry t s; RetryAfter d] ++ rest) = d :: retry_delays rest.
Proof. intros [-> | ->]; reflexivity. Qed.

Lemma submitFinalResults_ends_from world k ls :
  let evs := (submitFinalResults world k ls).1 in
  exists pre,
    Forall (fun ev => match ev with
                      | Post | ToastRetry _ _ | RetryAfter _ => True
                      | _ => False
                      end) pre
    /\ (evs = pre ++ [ToastOffline]
        \/ evs = pre ++ [ToastMissing]
        \/ evs = pre ++ [Post; ToastSuccess; NavigateAfter 2000]
        \/ (evs = pre ++ [ToastGaveUp; NavigateAfter 3000]
            /\ retry_delays evs = schedule k)).
Proof.
  funelim (submitFinalResults world k ls);
    try match goal with H : _ = submitFinalResults _ _ _ |- _ => clear H end;
    try (pose proof (try_block_shapes (world retryCount (getItem FINAL_KEY ls))) as Hshape;
         match goal with
         | Hb : try_block _ = _ |- _ => rewrite Hb in Hshape
         end);
    cbv zeta; cbn [fst].
  - exists []. split; [constructor|]. by left.
  - exists []. split; [constructor|]. destruct Hshape as [-> | ->]; auto.
  - destruct (submitFinalResults world (S retryCount) ls) as [rest ls'] eqn:Hrest.
    cbv zeta in H. cbn [fst] in *. destruct H as (pre & Hpre & Hend).
    exists (evs ++ [ToastRetry (delay retryCount / 1000) (S retryCount);
                    RetryAfter (delay retryCount)] ++ pre).
    split.
    + apply Forall_app. split; [destruct Hshape as [-> | ->]; repeat constructor|].
      apply Forall_app. split; [repeat constructor | exact Hpre].
    + assert (forall tail, rest = pre ++ tail ->
                evs ++ [ToastRetry (delay retryCount / 1000) (S retryCount);
                        RetryAfter (delay retryCount)] ++ rest
                = (evs ++ [ToastRetry (delay retryCount / 1000) (S retryCount);
                           RetryAfter (delay retryCount)] ++ pre) ++ tail) as Hassoc.
      { intros tail ->. by rewrite <- !app_assoc. }
      destruct Hend as [Hend | [Hend | [Hend | [Hend Hdelays]]]].
      * left. by apply Hassoc.
      * right. left. by apply Hassoc.
      * right. right. left. by apply Hassoc.
      * right. right. right. split; [by apply Hassoc|].
        rewrite schedule_step by done.
        rewrite retry_delays_app_cons by exact Hshape. by rewrite Hdelays.
  - exists evs. split; [destruct Hshape as [-> | ->]; repeat constructor|].
    right. right. right. split; [done|].
    rewrite schedule_done by done.
    destruct Hshape as [-> | ->]; reflexivity.
Qed.

(** X22: a submission ends in one of four ways, and only at its end.
    After zero or more POSTs and retry announcements, the chain stops
    with the offline notice, or with the notice of missing ids, or with
    a POST answered by the success notice and the way home in two
    seconds, or by giving up with the way home in three seconds;
    giving up comes only after both retry timers, of one and of two
    seconds, have been set. *)
Theorem submitFinalResults_ends world ls :
  let evs := (submitFinalResults world 0 ls).1 in
  exists pre,
    Forall (fun ev => match ev with
                      | Post | ToastRetry _ _ | RetryAfter _ => True
                      | _ => False
                      end) pre
    /\ (evs = pre ++ [ToastOffline]
        \/ evs = pre ++ [ToastMissing]
        \/ evs = pre ++ [Post; ToastSuccess; NavigateAfter 2000]
        \/ (evs = pre ++ [ToastGaveUp; NavigateAfter 3000]
            /\ retry_delays evs = [1000; 2000])).
Proof. exact (submitFinalResults_ends_from world 0 ls). Qed.

End SubmitSpec.

(* ===================================================================== *)
(** * What makes a preparation fail *)
(* ===================================================================== *)

Module PreparationOutcome.
Import JS Preparation.
#[local] Open Scope Z_scope.

(** X23: a preparation fails only on the storage.  Started with the
    guard down, a run returns [true] and ends ready at 100, whether or
    not the problems could be fetched and whether or not the Python
    warm-up succeeded, unless [localStorage.setItem] throws while the
    prepared flag is written; then it returns [false] and ends in the
    error stage at 0.  Either way the guard is down again. *)
Theorem prepareContest_fails_only_on_storage w st :
  isPreparing st = false ->
  exists st' pubs,
    run 15 w st
    = Some ((st', match setItem_throws w with None => true | Some _ => false end), pubs)
    /\ isPreparing st' = false
    /\ stage (current st') = match setItem_throws w with None => ready | Some _ => error end
    /\ progress (current st') = match setItem_throws w with None => 100 | Some _ => 0 end.
Proof.
  intros H. unfold run, prepareContest. rewrite H.
  destruct w as [[] [] [] [e|]]; eexists _, _;
    (split; [vm_compute; reflexivity | vm_compute; done]).
Qed.

Lemma prepareContest_fails_only_on_storage_witness :
  isPreparing initial = false
  /\ exists st' pubs,
       run 15 {| must_fetch := true; fetch_ok := false; preload_ok := false;
                 setItem_throws := None |} initial
       = Some ((st', true), pubs)
       /\ stage (current st') = ready.
Proof.
  split; [reflexivity|].
  destruct (prepareContest_fails_only_on_storage
              {| must_fetch := true; fetch_ok := false; preload_ok := false;
                 setItem_throws := None |} initial eq_refl)
    as (st' & pubs & Hrun & _ & Hstage & _).
  exists st', pubs. split; [exact Hrun | exact Hstage].
Defined.

End PreparationOutcome.
